(** * Text-to-Speech front end: a shallow embedding of the two components

  The repository holds two React components, [TextToSpeech] (on-device
  synthesis with microphone capture) and [IappTextToSpeech] (a remote HTTP
  synthesis service).  Each component is embedded as a state record (its
  [useState] cells and [useRef] boxes) and each event handler as a
  computation in a small state-and-log monad: the state is threaded
  explicitly and every call to a React setter or to the host environment
  (alert, confirm, getUserMedia, axios, ...) is appended to a log, in the
  order the handler issues it.  Answers of the host environment (whether
  the microphone is granted, what the HTTP call returns, what the clock
  reads) are inputs of the handlers. *)

From Stdlib Require Import ZArith Floats DecimalString DecimalZ.
From stdpp Require Import base strings list.

Local Open Scope Z_scope.

(** ** JavaScript values used by the components *)

Module JS.

(** [s.includes(searchString)]: [searchString] occurs in [s]. *)
Fixpoint includes (searchString s : string) : bool :=
  String.prefix searchString s ||
  match s with
  | EmptyString => false
  | String _ s' => includes searchString s'
  end.

(** [String.prototype.toLowerCase] on language tags.  Tags are ASCII
    (BCP 47); the letters A-Z are mapped to a-z and every other byte is
    kept. *)
Definition lower_char (c : Ascii.ascii) : Ascii.ascii :=
  let n := Ascii.N_of_ascii c in
  if ((65 <=? n) && (n <=? 90))%N then Ascii.ascii_of_N (n + 32) else c.

Fixpoint toLowerCase (s : string) : string :=
  match s with
  | EmptyString => EmptyString
  | String c s' => String (lower_char c) (toLowerCase s')
  end.

(** A string in a condition: the empty string is falsy. *)
Definition truthy (s : string) : bool :=
  match s with EmptyString => false | String _ _ => true end.

(** [`${n}`] for an integral number such as [Date.now()]: the decimal
    digits, with a leading minus sign below zero. *)
Definition number_to_string (n : Z) : string :=
  NilEmpty.string_of_int (Z.to_int n).

(** A binary payload: a [Blob] is its bytes and its MIME type;
    [new Blob(parts, {type})] concatenates the parts. *)
Record Blob := { bytes : list Byte.byte; type : string }.

Definition size (b : Blob) : nat := length (bytes b).

Definition new_Blob (parts : list (list Byte.byte)) (ty : string) : Blob :=
  {| bytes := concat parts; type := ty |}.

(** The outcome of an awaited host promise: resolved with a value, or
    rejected with an error whose [message] is kept. *)
Inductive Settled (A : Type) : Type :=
| Resolved (value : A)
| Rejected (message : string).
Arguments Resolved {A} value.
Arguments Rejected {A} message.

End JS.

(** ** Handlers as computations over the component state

  A handler runs to completion on the single UI thread.  [M S C A] is a
  computation over a state [S] that logs calls of type [C] and returns
  an [A]. *)

Module Handler.

Definition M (S C A : Type) : Type := S -> A * S * list C.

Definition ret {S C A} (a : A) : M S C A := fun s => (a, s, []).

Definition bind {S C A B} (m : M S C A) (k : A -> M S C B) : M S C B :=
  fun s =>
    let '(a, s1, l1) := m s in
    let '(b, s2, l2) := k a s1 in
    (b, s2, l1 ++ l2).

Definition get {S C} : M S C S := fun s => (s, s, []).

(** A React setter: the update is applied and the call is logged. *)
Definition update {S C} (f : S -> S) (c : C) : M S C unit :=
  fun s => (tt, f s, [c]).

(** A write to a [useRef] box: not a call, nothing is logged. *)
Definition assign {S C} (f : S -> S) : M S C unit :=
  fun s => (tt, f s, []).

(** A call to the host environment. *)
Definition call {S C} (c : C) : M S C unit := fun s => (tt, s, [c]).

(** A computation keeps a projection [view] of the state: whatever
    state it starts from, the view is the same when it ends. *)
Definition keeps {S C A V} (view : S -> V) (m : M S C A) : Prop :=
  forall s, view (m s).1.2 = view s.

Definition result {S C A} (m : M S C A) (s : S) : A := (m s).1.1.
Definition exec {S C A} (m : M S C A) (s : S) : S := (m s).1.2.
Definition log {S C A} (m : M S C A) (s : S) : list C := (m s).2.

End Handler.

Declare Scope handler_scope.
Delimit Scope handler_scope with handler.
Notation "x <- m ;; k" := (Handler.bind m (fun x => k))
  (at level 100, m at next level, right associativity) : handler_scope.
Notation "m ;; k" := (Handler.bind m (fun _ => k))
  (at level 100, right associativity) : handler_scope.

(** ** The remote synthesis component, [IappTextToSpeech] *)

Module IappTextToSpeech.

Import Handler.
Local Open Scope handler_scope.

Inductive VoiceType := kaitom | cee.

Definition VoiceType_to_string (v : VoiceType) : string :=
  match v with kaitom => "kaitom" | cee => "cee" end.

Module RecordedItem.
Record t := {
  id : string;
  text : string;
  url : string;
  timestamp : Z;
  voiceType : VoiceType }.
End RecordedItem.

(** The [useState] cells of the component. *)
Record State := {
  text : string;
  apiKey : string;
  isLoading : bool;
  recordings : list RecordedItem.t;
  selectedVoice : VoiceType }.

Definition init : State :=
  {| text := ""; apiKey := "demo"; isLoading := false; recordings := [];
     selectedVoice := kaitom |}.

(** The request object handed to [axios]. *)
Record AxiosRequestConfig := {
  method : string;
  request_url : string;
  params_text : string;
  headers_apikey : string;
  responseType : string }.

Inductive Call :=
| setText (v : string)
| setApiKey (v : string)
| setIsLoading (v : bool)
| setRecordings
| setSelectedVoice (v : VoiceType)
| axios (config : AxiosRequestConfig)
| createObjectURL (blob : JS.Blob)
| console_error (msg : string)
| alert (msg : string)
| audio_play (src : string).

(** What the host answers during one run of [convertTextToSpeech]: the
    settled HTTP call, the two readings of [Date.now()] (the first goes
    into the identifier, the second into the timestamp) and the object
    URL minted for the blob. *)
Record Host := {
  response : JS.Settled (list Byte.byte);
  now_id : Z;
  now_timestamp : Z;
  objectURL : string }.

Definition M := Handler.M State Call.

Definition do_setText (v : string) : M unit :=
  update (fun s => {| text := v; apiKey := apiKey s; isLoading := isLoading s;
                      recordings := recordings s; selectedVoice := selectedVoice s |})
         (setText v).

Definition do_setApiKey (v : string) : M unit :=
  update (fun s => {| text := text s; apiKey := v; isLoading := isLoading s;
                      recordings := recordings s; selectedVoice := selectedVoice s |})
         (setApiKey v).

Definition do_setIsLoading (v : bool) : M unit :=
  update (fun s => {| text := text s; apiKey := apiKey s; isLoading := v;
                      recordings := recordings s; selectedVoice := selectedVoice s |})
         (setIsLoading v).

(** [setRecordings(prev => f(prev))]. *)
Definition do_setRecordings (f : list RecordedItem.t -> list RecordedItem.t) : M unit :=
  update (fun s => {| text := text s; apiKey := apiKey s; isLoading := isLoading s;
                      recordings := f (recordings s); selectedVoice := selectedVoice s |})
         setRecordings.

Definition do_setSelectedVoice (v : VoiceType) : M unit :=
  update (fun s => {| text := text s; apiKey := apiKey s; isLoading := isLoading s;
                      recordings := recordings s; selectedVoice := v |})
         (setSelectedVoice v).

Definition handleTextChange (value : string) : M unit := do_setText value.

Definition handleApiKeyChange (value : string) : M unit := do_setApiKey value.

Definition handleVoiceChange (voice : VoiceType) : M unit := do_setSelectedVoice voice.

Definition getApiUrl (c : State) : string :=
  "https://api.iapp.co.th/thai-tts-" +:+ VoiceType_to_string (selectedVoice c) +:+ "/tts".

(** The artifact built from a response, in the render [c]. *)
Definition newRecording (c : State) (h : Host) : RecordedItem.t :=
  {| RecordedItem.id := "rec-" +:+ JS.number_to_string (now_id h);
     RecordedItem.text := text c;
     RecordedItem.url := objectURL h;
     RecordedItem.timestamp := now_timestamp h;
     RecordedItem.voiceType := selectedVoice c |}.

(** [convertTextToSpeech]: [c] is the render the handler closes over
    (its [text], [apiKey] and [selectedVoice]); the [finally] block runs
    on both exits of the [try]. *)
Definition convertTextToSpeech (h : Host) : M unit :=
  c <- get ;;
  if negb (JS.truthy (text c)) then ret tt
  else
    do_setIsLoading true ;;
    (let config := {| method := "get"; request_url := getApiUrl c;
                      params_text := text c; headers_apikey := apiKey c;
                      responseType := "arraybuffer" |} in
     call (axios config) ;;
     match response h with
     | JS.Resolved data =>
         let audioBlob := JS.new_Blob [data] "audio/mp3" in
         call (createObjectURL audioBlob) ;;
         do_setRecordings (fun prev => newRecording c h :: prev)
     | JS.Rejected _ =>
         call (console_error "Error converting text to speech:") ;;
         call (alert "ไม่สามารถแปลงข้อความเป็นเสียงได้ โปรดตรวจสอบ API key หรือการเชื่อมต่ออินเทอร์เน็ต")
     end) ;;
    do_setIsLoading false.

Definition playRecording (src : string) : M unit := call (audio_play src).

Definition deleteRecording (id : string) : M unit :=
  do_setRecordings (fun prev => filter (fun r => RecordedItem.id r ≠ id) prev).

(** The events the component reacts to, and a session as a sequence of
    them. *)
Inductive Event :=
| TextChange (value : string)
| ApiKeyChange (value : string)
| VoiceChange (voice : VoiceType)
| Convert (h : Host)
| Play (src : string)
| Delete (id : string).

Definition handle (e : Event) : M unit :=
  match e with
  | TextChange v => handleTextChange v
  | ApiKeyChange v => handleApiKeyChange v
  | VoiceChange v => handleVoiceChange v
  | Convert h => convertTextToSpeech h
  | Play src => playRecording src
  | Delete id => deleteRecording id
  end.

Definition run (es : list Event) (s : State) : State :=
  fold_left (fun s e => exec (handle e) s) es s.

(** The clock readings that go into identifiers during a session. *)
Definition id_clock (es : list Event) : list Z :=
  omap (fun e => match e with Convert h => Some (now_id h) | _ => None end) es.

Definition is_delete (e : Event) : bool :=
  match e with Delete _ => true | _ => false end.

End IappTextToSpeech.

(** ** The on-device synthesis component, [TextToSpeech] *)

Module TextToSpeech.

Import Handler.
Local Open Scope handler_scope.

Module Voice.
Record t := { name : string; lang : string; voiceURI : string }.
End Voice.

Module SpeechOptions.
Record t := {
  text : string;
  rate : option float;
  pitch : option float;
  volume : option float;
  lang : option string }.
End SpeechOptions.

Module RecordedItem.
Record t := { id : string; text : string; url : string; timestamp : Z }.
End RecordedItem.

(** The host's [SpeechSynthesisUtterance].  [onend] is [Some b] once the
    component has installed its completion handler, [b] being the
    [recordingStarted] flag the handler closes over. *)
Module Utterance.
Record t := {
  text : string;
  rate : float;
  pitch : float;
  volume : float;
  lang : string;
  voice : option Voice.t;
  onend : option bool }.
End Utterance.

(** [new SpeechSynthesisUtterance(text)]: the initial attribute values of
    the Web Speech API (language unset, no voice, unit rate, pitch and
    volume, no handler). *)
Definition new_SpeechSynthesisUtterance (text : string) : Utterance.t :=
  {| Utterance.text := text;
     Utterance.rate := 1.0%float;
     Utterance.pitch := 1.0%float;
     Utterance.volume := 1.0%float;
     Utterance.lang := "";
     Utterance.voice := None;
     Utterance.onend := None |}.

(** Helper function to convert text to speech with Thai voice. *)
Definition convertTextToSpeech (options : SpeechOptions.t) : Utterance.t :=
  let utterance := new_SpeechSynthesisUtterance (SpeechOptions.text options) in
  {| Utterance.text := Utterance.text utterance;
     Utterance.rate := default 1.0%float (SpeechOptions.rate options);
     Utterance.pitch := default 1.0%float (SpeechOptions.pitch options);
     Utterance.volume := default 1.0%float (SpeechOptions.volume options);
     Utterance.lang := default "th-TH" (SpeechOptions.lang options);
     Utterance.voice := Utterance.voice utterance;
     Utterance.onend := Utterance.onend utterance |}.

(** The host's [MediaRecorder]: its [state], and the [text] its [onstop]
    handler closes over (the text of the render that opened the capture). *)
Inductive RecordingState := inactive | recording | paused.

Module MediaRecorder.
Record t := { state : RecordingState; onstop_text : string }.
End MediaRecorder.

(** The [useState] cells and the [useRef] boxes of the component.
    [synth] tells whether [synth.current] holds the host's synthesis
    engine, [audioContextRef] whether the box holds a context. *)
Record State := {
  text : string;
  voices : list Voice.t;
  selectedVoice : string;
  isSpeaking : bool;
  isThaiVoice : bool;
  isRecording : bool;
  hasMicPermission : option bool;
  rate : float;
  pitch : float;
  recordings : list RecordedItem.t;
  synth : bool;
  mediaRecorderRef : option MediaRecorder.t;
  audioChunksRef : list JS.Blob;
  audioContextRef : bool;
  recordingPreparedRef : bool }.

Definition init : State :=
  {| text := ""; voices := []; selectedVoice := ""; isSpeaking := false;
     isThaiVoice := false; isRecording := false; hasMicPermission := None;
     rate := 1.0%float; pitch := 1.0%float; recordings := [];
     synth := false; mediaRecorderRef := None; audioChunksRef := [];
     audioContextRef := false; recordingPreparedRef := false |}.

Inductive Call :=
| setText (v : string)
| setVoices (v : list Voice.t)
| setSelectedVoice (v : string)
| setIsSpeaking (v : bool)
| setIsThaiVoice (v : bool)
| setIsRecording (v : bool)
| setHasMicPermission (v : bool)
| setRate (v : float)
| setPitch (v : float)
| setRecordings
| getUserMedia
| stopTracks
| new_AudioContext
| audioContext_close
| new_MediaRecorder
| mediaRecorder_start (timeslice : Z)
| mediaRecorder_stop
| createObjectURL (blob : JS.Blob)
| console_error (msg : string)
| alert (msg : string)
| confirm (msg : string)
| synth_speak (utterance : Utterance.t)
| synth_cancel
| audio_play (src : string).

Definition M := Handler.M State Call.

(** Writes to one cell or box, all others kept. *)
Definition with_text (v : string) (s : State) : State :=
  {| text := v; voices := voices s; selectedVoice := selectedVoice s;
     isSpeaking := isSpeaking s; isThaiVoice := isThaiVoice s;
     isRecording := isRecording s; hasMicPermission := hasMicPermission s;
     rate := rate s; pitch := pitch s; recordings := recordings s; synth := synth s;
     mediaRecorderRef := mediaRecorderRef s; audioChunksRef := audioChunksRef s;
     audioContextRef := audioContextRef s;
     recordingPreparedRef := recordingPreparedRef s |}.

Definition with_voices (v : list Voice.t) (s : State) : State :=
  {| text := text s; voices := v; selectedVoice := selectedVoice s;
     isSpeaking := isSpeaking s; isThaiVoice := isThaiVoice s;
     isRecording := isRecording s; hasMicPermission := hasMicPermission s;
     rate := rate s; pitch := pitch s; recordings := recordings s; synth := synth s;
     mediaRecorderRef := mediaRecorderRef s; audioChunksRef := audioChunksRef s;
     audioContextRef := audioContextRef s;
     recordingPreparedRef := recordingPreparedRef s |}.

Definition with_selectedVoice (v : string) (s : State) : State :=
  {| text := text s; voices := voices s; selectedVoice := v;
     isSpeaking := isSpeaking s; isThaiVoice := isThaiVoice s;
     isRecording := isRecording s; hasMicPermission := hasMicPermission s;
     rate := rate s; pitch := pitch s; recordings := recordings s; synth := synth s;
     mediaRecorderRef := mediaRecorderRef s; audioChunksRef := audioChunksRef s;
     audioContextRef := audioContextRef s;
     recordingPreparedRef := recordingPreparedRef s |}.

Definition with_isSpeaking (v : bool) (s : State) : State :=
  {| text := text s; voices := voices s; selectedVoice := selectedVoice s;
     isSpeaking := v; isThaiVoice := isThaiVoice s; isRecording := isRecording s;
     hasMicPermission := hasMicPermission s; rate := rate s; pitch := pitch s;
     recordings := recordings s; synth := synth s;
     mediaRecorderRef := mediaRecorderRef s; audioChunksRef := audioChunksRef s;
     audioContextRef := audioContextRef s;
     recordingPreparedRef := recordingPreparedRef s |}.

Definition with_isThaiVoice (v : bool) (s : State) : State :=
  {| text := text s; voices := voices s; selectedVoice := selectedVoice s;
     isSpeaking := isSpeaking s; isThaiVoice := v; isRecording := isRecording s;
     hasMicPermission := hasMicPermission s; rate := rate s; pitch := pitch s;
     recordings := recordings s; synth := synth s;
     mediaRecorderRef := mediaRecorderRef s; audioChunksRef := audioChunksRef s;
     audioContextRef := audioContextRef s;
     recordingPreparedRef := recordingPreparedRef s |}.

Definition with_isRecording (v : bool) (s : State) : State :=
  {| text := text s; voices := voices s; selectedVoice := selectedVoice s;
     isSpeaking := isSpeaking s; isThaiVoice := isThaiVoice s; isRecording := v;
     hasMicPermission := hasMicPermission s; rate := rate s; pitch := pitch s;
     recordings := recordings s; synth := synth s;
     mediaRecorderRef := mediaRecorderRef s; audioChunksRef := audioChunksRef s;
     audioContextRef := audioContextRef s;
     recordingPreparedRef := recordingPreparedRef s |}.

Definition with_hasMicPermission (v : option bool) (s : State) : State :=
  {| text := text s; voices := voices s; selectedVoice := selectedVoice s;
     isSpeaking := isSpeaking s; isThaiVoice := isThaiVoice s;
     isRecording := isRecording s; hasMicPermission := v; rate := rate s;
     pitch := pitch s; recordings := recordings s; synth := synth s;
     mediaRecorderRef := mediaRecorderRef s; audioChunksRef := audioChunksRef s;
     audioContextRef := audioContextRef s;
     recordingPreparedRef := recordingPreparedRef s |}.

Definition with_rate (v : float) (s : State) : State :=
  {| text := text s; voices := voices s; selectedVoice := selectedVoice s;
     isSpeaking := isSpeaking s; isThaiVoice := isThaiVoice s;
     isRecording := isRecording s; hasMicPermission := hasMicPermission s; rate := v;
     pitch := pitch s; recordings := recordings s; synth := synth s;
     mediaRecorderRef := mediaRecorderRef s; audioChunksRef := audioChunksRef s;
     audioContextRef := audioContextRef s;
     recordingPreparedRef := recordingPreparedRef s |}.

Definition with_pitch (v : float) (s : State) : State :=
  {| text := text s; voices := voices s; selectedVoice := selectedVoice s;
     isSpeaking := isSpeaking s; isThaiVoice := isThaiVoice s;
     isRecording := isRecording s; hasMicPermission := hasMicPermission s;
     rate := rate s; pitch := v; recordings := recordings s; synth := synth s;
     mediaRecorderRef := mediaRecorderRef s; audioChunksRef := audioChunksRef s;
     audioContextRef := audioContextRef s;
     recordingPreparedRef := recordingPreparedRef s |}.

Definition with_recordings (v : list RecordedItem.t) (s : State) : State :=
  {| text := text s; voices := voices s; selectedVoice := selectedVoice s;
     isSpeaking := isSpeaking s; isThaiVoice := isThaiVoice s;
     isRecording := isRecording s; hasMicPermission := hasMicPermission s;
     rate := rate s; pitch := pitch s; recordings := v; synth := synth s;
     mediaRecorderRef := mediaRecorderRef s; audioChunksRef := audioChunksRef s;
     audioContextRef := audioContextRef s;
     recordingPreparedRef := recordingPreparedRef s |}.

Definition with_synth (v : bool) (s : State) : State :=
  {| text := text s; voices := voices s; selectedVoice := selectedVoice s;
     isSpeaking := isSpeaking s; isThaiVoice := isThaiVoice s;
     isRecording := isRecording s; hasMicPermission := hasMicPermission s;
     rate := rate s; pitch := pitch s; recordings := recordings s; synth := v;
     mediaRecorderRef := mediaRecorderRef s; audioChunksRef := audioChunksRef s;
     audioContextRef := audioContextRef s;
     recordingPreparedRef := recordingPreparedRef s |}.

Definition with_mediaRecorderRef (v : option MediaRecorder.t) (s : State) : State :=
  {| text := text s; voices := voices s; selectedVoice := selectedVoice s;
     isSpeaking := isSpeaking s; isThaiVoice := isThaiVoice s;
     isRecording := isRecording s; hasMicPermission := hasMicPermission s;
     rate := rate s; pitch := pitch s; recordings := recordings s; synth := synth s;
     mediaRecorderRef := v; audioChunksRef := audioChunksRef s;
     audioContextRef := audioContextRef s;
     recordingPreparedRef := recordingPreparedRef s |}.

Definition with_audioChunksRef (v : list JS.Blob) (s : State) : State :=
  {| text := text s; voices := voices s; selectedVoice := selectedVoice s;
     isSpeaking := isSpeaking s; isThaiVoice := isThaiVoice s;
     isRecording := isRecording s; hasMicPermission := hasMicPermission s;
     rate := rate s; pitch := pitch s; recordings := recordings s; synth := synth s;
     mediaRecorderRef := mediaRecorderRef s; audioChunksRef := v;
     audioContextRef := audioContextRef s;
     recordingPreparedRef := recordingPreparedRef s |}.

Definition with_audioContextRef (v : bool) (s : State) : State :=
  {| text := text s; voices := voices s; selectedVoice := selectedVoice s;
     isSpeaking := isSpeaking s; isThaiVoice := isThaiVoice s;
     isRecording := isRecording s; hasMicPermission := hasMicPermission s;
     rate := rate s; pitch := pitch s; recordings := recordings s; synth := synth s;
     mediaRecorderRef := mediaRecorderRef s; audioChunksRef := audioChunksRef s;
     audioContextRef := v; recordingPreparedRef := recordingPreparedRef s |}.

Definition with_recordingPreparedRef (v : bool) (s : State) : State :=
  {| text := text s; voices := voices s; selectedVoice := selectedVoice s;
     isSpeaking := isSpeaking s; isThaiVoice := isThaiVoice s;
     isRecording := isRecording s; hasMicPermission := hasMicPermission s;
     rate := rate s; pitch := pitch s; recordings := recordings s; synth := synth s;
     mediaRecorderRef := mediaRecorderRef s; audioChunksRef := audioChunksRef s;
     audioContextRef := audioContextRef s; recordingPreparedRef := v |}.

(** What the host answers while a capture is opened: the permission
    request of [requestMicrophonePermission], the construction of the
    [AudioContext], the capture stream and the construction of the
    [MediaRecorder] of [startRecording]. *)
Record CaptureHost := {
  permissionStream : JS.Settled unit;
  audioContext : JS.Settled unit;
  captureStream : JS.Settled unit;
  mediaRecorder : JS.Settled unit }.

(** What the host supplies when a recorder stops: the data of the last
    [dataavailable] event, the two readings of [Date.now()] (the first
    goes into the identifier, the second into the timestamp) and the
    object URL minted for the blob. *)
Record StopHost := {
  finalData : JS.Blob;
  now_id : Z;
  now_timestamp : Z;
  objectURL : string }.

Definition truthy_permission (p : option bool) : bool :=
  match p with Some true => true | _ => false end.

Definition is_recording (r : option MediaRecorder.t) : bool :=
  match r with
  | Some mr => match MediaRecorder.state mr with recording => true | _ => false end
  | None => false
  end.

Definition is_active (r : option MediaRecorder.t) : bool :=
  match r with
  | Some mr => match MediaRecorder.state mr with inactive => false | _ => true end
  | None => false
  end.

Definition checkMicrophonePermission (stream : option (JS.Settled unit)) : M unit :=
  match stream with
  | None => update (with_hasMicPermission (Some false)) (setHasMicPermission false)
  | Some r =>
      call getUserMedia ;;
      match r with
      | JS.Resolved _ =>
          update (with_hasMicPermission (Some true)) (setHasMicPermission true) ;;
          call stopTracks
      | JS.Rejected _ =>
          call (console_error "ไม่สามารถเข้าถึงไมโครโฟนได้:") ;;
          update (with_hasMicPermission (Some false)) (setHasMicPermission false)
      end
  end.

Definition supportedLang (voice : Voice.t) : bool :=
  let lang := JS.toLowerCase (Voice.lang voice) in
  JS.includes "th" lang || JS.includes "en" lang || JS.includes "ko" lang.

(** [getVoices]: [catalog] is what [synth.current?.getVoices()] yields,
    [None] when there is no engine. *)
Definition getVoices (catalog : option (list Voice.t)) : M unit :=
  let availableVoices := default [] catalog in
  let filteredVoices := filter (fun voice => Is_true (supportedLang voice)) availableVoices in
  update (with_voices filteredVoices) (setVoices filteredVoices) ;;
  match filteredVoices with
  | [] => ret tt
  | first :: _ =>
      update (with_selectedVoice (Voice.voiceURI first))
             (setSelectedVoice (Voice.voiceURI first)) ;;
      match List.find (fun v => JS.includes "th" (Voice.lang v)) filteredVoices with
      | Some thaiVoice =>
          update (with_selectedVoice (Voice.voiceURI thaiVoice))
                 (setSelectedVoice (Voice.voiceURI thaiVoice)) ;;
          update (with_isThaiVoice true) (setIsThaiVoice true)
      | None => ret tt
      end
  end.

Definition handleTextChange (value : string) : M unit :=
  update (with_text value) (setText value).

Definition handleVoiceChange (voiceURI : string) : M unit :=
  c <- get ;;
  update (with_selectedVoice voiceURI) (setSelectedVoice voiceURI) ;;
  let selectedVoiceObj :=
    List.find (fun v => String.eqb (Voice.voiceURI v) voiceURI) (voices c) in
  let thai := default false ((fun v => JS.includes "th" (Voice.lang v)) <$> selectedVoiceObj) in
  update (with_isThaiVoice thai) (setIsThaiVoice thai).

Definition handleRateChange (value : float) : M unit :=
  update (with_rate value) (setRate value).

Definition handlePitchChange (value : float) : M unit :=
  update (with_pitch value) (setPitch value).

Definition prepareRecording (h : CaptureHost) : M bool :=
  s <- get ;;
  if recordingPreparedRef s then ret true
  else if audioContextRef s then
    assign (with_recordingPreparedRef true) ;; ret true
  else
    call new_AudioContext ;;
    match audioContext h with
    | JS.Resolved _ =>
        assign (with_audioContextRef true) ;;
        assign (with_recordingPreparedRef true) ;;
        ret true
    | JS.Rejected _ =>
        call (console_error "ไม่สามารถเตรียมการบันทึกเสียงได้:") ;;
        ret false
    end.

Definition requestMicrophonePermission (h : CaptureHost) : M bool :=
  call getUserMedia ;;
  match permissionStream h with
  | JS.Resolved _ =>
      update (with_hasMicPermission (Some true)) (setHasMicPermission true) ;;
      call stopTracks ;;
      _ <- prepareRecording h ;;
      ret true
  | JS.Rejected _ =>
      call (console_error "ไม่สามารถเข้าถึงไมโครโฟนได้:") ;;
      update (with_hasMicPermission (Some false)) (setHasMicPermission false) ;;
      ret false
  end.

(** The recorder's [ondataavailable] handler. *)
Definition ondataavailable (data : JS.Blob) : M unit :=
  if (0 <? JS.size data)%nat then
    s <- get ;; assign (with_audioChunksRef (audioChunksRef s ++ [data]))
  else ret tt.

(** The artifact the recorder's [onstop] handler builds; [text] is the
    text the handler closes over. *)
Definition newRecording (text : string) (h : StopHost) : RecordedItem.t :=
  {| RecordedItem.id := "rec-" +:+ JS.number_to_string (now_id h);
     RecordedItem.text := text;
     RecordedItem.url := objectURL h;
     RecordedItem.timestamp := now_timestamp h |}.

(** The recorder's [onstop] handler. *)
Definition onstop (text : string) (h : StopHost) : M unit :=
  s <- get ;;
  let audioBlob := JS.new_Blob (JS.bytes <$> audioChunksRef s) "audio/wav" in
  call (createObjectURL audioBlob) ;;
  update (fun s => with_recordings (newRecording text h :: recordings s) s) setRecordings ;;
  call stopTracks ;;
  update (with_isRecording false) (setIsRecording false).

(** [mediaRecorderRef.current.stop()] on a recorder that is not inactive.
    The call itself makes the recorder inactive ([stop_call], which
    yields the text the recorder's [onstop] closes over); the host then
    delivers the data gathered since the last chunk and fires [stop]
    ([stop_events]), once the calling handler has finished. *)
Definition stop_call : M (option string) :=
  s <- get ;;
  match mediaRecorderRef s with
  | None => ret None
  | Some mr =>
      call mediaRecorder_stop ;;
      assign (with_mediaRecorderRef
                (Some {| MediaRecorder.state := inactive;
                         MediaRecorder.onstop_text := MediaRecorder.onstop_text mr |})) ;;
      ret (Some (MediaRecorder.onstop_text mr))
  end.

Definition stop_events (stopped : option string) (h : StopHost) : M unit :=
  match stopped with
  | None => ret tt
  | Some text => ondataavailable (finalData h) ;; onstop text h
  end.

Definition stop (h : StopHost) : M unit :=
  stopped <- stop_call ;; stop_events stopped h.

(** [startRecording]; [c] is the render the handler closes over (its
    [hasMicPermission] and [text]). *)
Definition startRecording (c : State) (h : CaptureHost) : M bool :=
  permissionGranted <-
    (if negb (truthy_permission (hasMicPermission c))
     then requestMicrophonePermission h else ret true) ;;
  if negb permissionGranted then
    call (alert "ไม่สามารถบันทึกเสียงได้เนื่องจากไม่ได้รับอนุญาตให้ใช้ไมโครโฟน") ;;
    ret false
  else
    s <- get ;;
    prepared <- (if negb (recordingPreparedRef s) then prepareRecording h else ret true) ;;
    if negb prepared then
      call (alert "ไม่สามารถเตรียมการบันทึกเสียงได้") ;;
      ret false
    else
      call getUserMedia ;;
      match captureStream h, mediaRecorder h with
      | JS.Resolved _, JS.Resolved _ =>
          call new_MediaRecorder ;;
          assign (with_mediaRecorderRef
                    (Some {| MediaRecorder.state := inactive;
                             MediaRecorder.onstop_text := text c |})) ;;
          assign (with_audioChunksRef []) ;;
          call (mediaRecorder_start 1000) ;;
          assign (with_mediaRecorderRef
                    (Some {| MediaRecorder.state := recording;
                             MediaRecorder.onstop_text := text c |})) ;;
          update (with_isRecording true) (setIsRecording true) ;;
          ret true
      | JS.Rejected message, _ =>
          call (console_error "Error starting recording:") ;;
          call (alert ("ไม่สามารถเริ่มบันทึกเสียงได้: " +:+ message)) ;;
          ret false
      | JS.Resolved _, JS.Rejected message =>
          call new_MediaRecorder ;;
          call (console_error "Error starting recording:") ;;
          call (alert ("ไม่สามารถเริ่มบันทึกเสียงได้: " +:+ message)) ;;
          ret false
      end.

Definition find_voice (c : State) : option Voice.t :=
  List.find (fun v => String.eqb (Voice.voiceURI v) (selectedVoice c)) (voices c).

(** The request [handleSpeak] builds from the render [c]. *)
Definition build_utterance (c : State) (recordingStarted : bool) : Utterance.t :=
  let utterance :=
    if isThaiVoice c then
      convertTextToSpeech
        {| SpeechOptions.text := text c;
           SpeechOptions.rate := Some (rate c);
           SpeechOptions.pitch := Some (pitch c);
           SpeechOptions.volume := None;
           SpeechOptions.lang := Voice.lang <$> find_voice c |}
    else
      let u := new_SpeechSynthesisUtterance (text c) in
      {| Utterance.text := Utterance.text u;
         Utterance.rate := rate c;
         Utterance.pitch := pitch c;
         Utterance.volume := Utterance.volume u;
         Utterance.lang := Utterance.lang u;
         Utterance.voice := Utterance.voice u;
         Utterance.onend := Utterance.onend u |} in
  {| Utterance.text := Utterance.text utterance;
     Utterance.rate := Utterance.rate utterance;
     Utterance.pitch := Utterance.pitch utterance;
     Utterance.volume := Utterance.volume utterance;
     Utterance.lang := Utterance.lang utterance;
     Utterance.voice :=
       match find_voice c with
       | Some voice => Some voice
       | None => Utterance.voice utterance
       end;
     Utterance.onend := Some recordingStarted |}.

Definition handleSpeak (h : CaptureHost) (confirmed : bool) : M unit :=
  c <- get ;;
  if synth c && JS.truthy (text c) && negb (isSpeaking c) then
    recordingStarted <-
      (if negb (isRecording c) then startRecording c h else ret (isRecording c)) ;;
    speakWithoutRecording <-
      (if negb recordingStarted then
         call (confirm "ไม่สามารถบันทึกเสียงได้ คุณต้องการพูดโดยไม่บันทึกหรือไม่?") ;;
         ret confirmed
       else ret true) ;;
    if negb speakWithoutRecording then ret tt
    else
      update (with_isSpeaking true) (setIsSpeaking true) ;;
      call (synth_speak (build_utterance c recordingStarted))
  else ret tt.

(** The [onend] handler of an utterance spoken by [handleSpeak]. *)
Definition utterance_onend (recordingStarted : bool) (h : StopHost) : M unit :=
  update (with_isSpeaking false) (setIsSpeaking false) ;;
  s <- get ;;
  if recordingStarted && is_recording (mediaRecorderRef s) then stop h else ret tt.

Definition playRecording (src : string) : M unit := call (audio_play src).

Definition deleteRecording (id : string) : M unit :=
  update (fun s => with_recordings (filter (fun r => RecordedItem.id r ≠ id) (recordings s)) s)
         setRecordings.

Definition handleCancel (h : StopHost) : M unit :=
  c <- get ;;
  if synth c then
    call synth_cancel ;;
    update (with_isSpeaking false) (setIsSpeaking false) ;;
    s <- get ;;
    if isRecording c && is_recording (mediaRecorderRef s) then stop h else ret tt
  else ret tt.

(** The body of the effect that depends on [hasMicPermission], and its
    cleanup. *)
Definition effect (speechSynthesis : option (list Voice.t)) (h : CaptureHost) : M unit :=
  c <- get ;;
  assign (with_synth (bool_decide (is_Some speechSynthesis))) ;;
  getVoices speechSynthesis ;;
  if truthy_permission (hasMicPermission c) then _ <- prepareRecording h ;; ret tt
  else ret tt.

Definition cleanup (h : StopHost) : M unit :=
  s <- get ;;
  (if synth s then call synth_cancel else ret tt) ;;
  stopped <- (if is_active (mediaRecorderRef s) then stop_call else ret None) ;;
  (if audioContextRef s then call audioContext_close else ret tt) ;;
  stop_events stopped h.

(** The events the component reacts to, and a session as a sequence of
    them. *)
Inductive Event :=
| CheckPermission (stream : option (JS.Settled unit))
| Effect (speechSynthesis : option (list Voice.t)) (h : CaptureHost)
| Cleanup (h : StopHost)
| VoicesChanged (catalog : option (list Voice.t))
| TextChange (value : string)
| VoiceChange (voiceURI : string)
| RateChange (value : float)
| PitchChange (value : float)
| Speak (h : CaptureHost) (confirmed : bool)
| DataAvailable (data : JS.Blob)
| UtteranceEnd (recordingStarted : bool) (h : StopHost)
| Cancel (h : StopHost)
| Play (src : string)
| Delete (id : string).

Definition handle (e : Event) : M unit :=
  match e with
  | CheckPermission r => checkMicrophonePermission r
  | Effect v h => effect v h
  | Cleanup h => cleanup h
  | VoicesChanged v => getVoices v
  | TextChange v => handleTextChange v
  | VoiceChange v => handleVoiceChange v
  | RateChange v => handleRateChange v
  | PitchChange v => handlePitchChange v
  | Speak h b => handleSpeak h b
  | DataAvailable d => ondataavailable d
  | UtteranceEnd b h => utterance_onend b h
  | Cancel h => handleCancel h
  | Play src => playRecording src
  | Delete id => deleteRecording id
  end.

Definition run (es : list Event) (s : State) : State :=
  fold_left (fun s e => exec (handle e) s) es s.

(** What the host would supply if the event stopped a recorder, and the
    clock readings that may go into identifiers during a session. *)
Definition stop_host (e : Event) : option StopHost :=
  match e with
  | Cleanup h | UtteranceEnd _ h | Cancel h => Some h
  | _ => None
  end.

Definition id_clock (es : list Event) : list Z :=
  omap (fun e => now_id <$> stop_host e) es.

Definition is_delete (e : Event) : bool :=
  match e with Delete _ => true | _ => false end.

(** The utterances handed to the engine, as logged. *)
Definition spoken (l : list Call) : list Utterance.t :=
  omap (fun c => match c with synth_speak u => Some u | _ => None end) l.

End TextToSpeech.

(** ** What the two components render

    The parts of the rendered output that are computed from the state:
    which buttons are disabled, and the file name each artifact is
    offered for download under. *)

Module TextToSpeechView.

(** [disabled={isSpeaking || !text}] on the speak button. *)
Definition speak_disabled (s : TextToSpeech.State) : bool :=
  TextToSpeech.isSpeaking s || negb (JS.truthy (TextToSpeech.text s)).

(** [disabled={!isSpeaking}] on the cancel button. *)
Definition cancel_disabled (s : TextToSpeech.State) : bool :=
  negb (TextToSpeech.isSpeaking s).

(** [download={`speech-${recording.timestamp}.wav`}]. *)
Definition download (recording : TextToSpeech.RecordedItem.t) : string :=
  "speech-" +:+ JS.number_to_string (TextToSpeech.RecordedItem.timestamp recording)
  +:+ ".wav".

End TextToSpeechView.

Module IappTextToSpeechView.


(** [download={`iapp-${recording.voiceType}-${recording.timestamp}.mp3`}]. *)
Definition download (recording : IappTextToSpeech.RecordedItem.t) : string :=
  "iapp-"
  +:+ IappTextToSpeech.VoiceType_to_string (IappTextToSpeech.RecordedItem.voiceType recording)
  +:+ "-"
  +:+ JS.number_to_string (IappTextToSpeech.RecordedItem.timestamp recording)
  +:+ ".mp3".

End IappTextToSpeechView.

(** ** Whole sessions of [TextToSpeech], with their logs *)

Module TextToSpeechSession.

(** Whether an awaited host promise resolved. *)
Definition resolved {A} (r : JS.Settled A) : bool :=
  match r with JS.Resolved _ => true | JS.Rejected _ => false end.

(** The calls logged over a session, in order. *)
Fixpoint trace (es : list TextToSpeech.Event) (s : TextToSpeech.State)
    : list TextToSpeech.Call :=
  match es with
  | [] => []
  | e :: es' =>
      Handler.log (TextToSpeech.handle e) s
      ++ trace es' (Handler.exec (TextToSpeech.handle e) s)
  end.

(** How many times a log constructs an [AudioContext], asks the user to
    confirm, and asks the host for the microphone. *)
Definition audio_contexts (l : list TextToSpeech.Call) : nat :=
  length (omap (fun c => match c with
                         | TextToSpeech.new_AudioContext => Some tt
                         | _ => None
                         end) l).

Definition confirms (l : list TextToSpeech.Call) : nat :=
  length (omap (fun c => match c with
                         | TextToSpeech.confirm _ => Some tt
                         | _ => None
                         end) l).

(** How many speak requests a session holds. *)
Definition speak_requests (es : list TextToSpeech.Event) : nat :=
  length (omap (fun e => match e with
                         | TextToSpeech.Speak _ _ => Some tt
                         | _ => None
                         end) es).

End TextToSpeechSession.

(** * Example hosts and sessions

    Concrete answers of the host and concrete sessions, on which the
    properties below are instantiated. *)

(** A host that grants the microphone and builds every object asked for. *)
Definition granted : TextToSpeech.CaptureHost :=
  {| TextToSpeech.permissionStream := JS.Resolved tt;
     TextToSpeech.audioContext := JS.Resolved tt;
     TextToSpeech.captureStream := JS.Resolved tt;
     TextToSpeech.mediaRecorder := JS.Resolved tt |}.

(** A host that refuses the microphone. *)
Definition refused : TextToSpeech.CaptureHost :=
  {| TextToSpeech.permissionStream := JS.Rejected "Permission denied";
     TextToSpeech.audioContext := JS.Resolved tt;
     TextToSpeech.captureStream := JS.Rejected "Permission denied";
     TextToSpeech.mediaRecorder := JS.Resolved tt |}.

Definition samantha : TextToSpeech.Voice.t :=
  {| TextToSpeech.Voice.name := "Samantha";
     TextToSpeech.Voice.lang := "en-US";
     TextToSpeech.Voice.voiceURI := "com.apple.voice.compact.en-US.Samantha" |}.

Definition kanya : TextToSpeech.Voice.t :=
  {| TextToSpeech.Voice.name := "Kanya";
     TextToSpeech.Voice.lang := "th-TH";
     TextToSpeech.Voice.voiceURI := "com.apple.voice.compact.th-TH.Kanya" |}.

(** A Thai voice that reports its tag in upper case. *)
Definition narisa_upper : TextToSpeech.Voice.t :=
  {| TextToSpeech.Voice.name := "Narisa";
     TextToSpeech.Voice.lang := "TH-TH";
     TextToSpeech.Voice.voiceURI := "urn:voice:narisa" |}.

Definition chunk1 : JS.Blob :=
  {| JS.bytes := [Byte.x52; Byte.x49; Byte.x46; Byte.x46]; JS.type := "audio/webm" |}.

Definition stop_at_123 : TextToSpeech.StopHost :=
  {| TextToSpeech.finalData := {| JS.bytes := [Byte.x00]; JS.type := "audio/webm" |};
     TextToSpeech.now_id := 1700000000123;
     TextToSpeech.now_timestamp := 1700000000124;
     TextToSpeech.objectURL := "blob:http://localhost:3000/1" |}.

(** A session in which a capture is open while the engine speaks: the
    microphone is granted, the catalog has a Thai voice, a text is typed
    and spoken, and one chunk has arrived. *)
Definition capturing_session : list TextToSpeech.Event :=
  [ TextToSpeech.CheckPermission (Some (JS.Resolved tt));
    TextToSpeech.Effect (Some [samantha; kanya]) granted;
    TextToSpeech.TextChange "hello";
    TextToSpeech.Speak granted false;
    TextToSpeech.DataAvailable chunk1 ].

(** A session with an English voice only, the rate set to 1.5 and the
    pitch to 1.1 (the nearest double). *)
Definition english_session : list TextToSpeech.Event :=
  [ TextToSpeech.CheckPermission (Some (JS.Resolved tt));
    TextToSpeech.Effect (Some [samantha]) granted;
    TextToSpeech.TextChange "hello";
    TextToSpeech.RateChange 1.5%float;
    TextToSpeech.PitchChange 0x1.199999999999ap+0%float ].

(** The same settings with a Thai voice in the catalog. *)
Definition thai_session : list TextToSpeech.Event :=
  [ TextToSpeech.CheckPermission (Some (JS.Resolved tt));
    TextToSpeech.Effect (Some [samantha; kanya]) granted;
    TextToSpeech.TextChange "hello";
    TextToSpeech.RateChange 1.5%float;
    TextToSpeech.PitchChange 0x1.199999999999ap+0%float ].

(** A session in which the microphone was refused when the page opened. *)
Definition refused_session : list TextToSpeech.Event :=
  [ TextToSpeech.CheckPermission (Some (JS.Rejected "Permission denied"));
    TextToSpeech.Effect (Some [samantha; kanya]) refused;
    TextToSpeech.TextChange "hello" ].

(** The host has a synthesis engine: no run of the effect finds
    [window.speechSynthesis] missing. *)
Definition engine_present (e : TextToSpeech.Event) : Prop :=
  match e with
  | TextToSpeech.Effect None _ => False
  | _ => True
  end.

(** Two successful remote syntheses one second apart, the style changed
    in between. *)
Definition first_synthesis : IappTextToSpeech.Host :=
  {| IappTextToSpeech.response := JS.Resolved [Byte.x49; Byte.x44; Byte.x33];
     IappTextToSpeech.now_id := 1700000000000;
     IappTextToSpeech.now_timestamp := 1700000000000;
     IappTextToSpeech.objectURL := "blob:a" |}.

Definition second_synthesis : IappTextToSpeech.Host :=
  {| IappTextToSpeech.response := JS.Resolved [Byte.x49; Byte.x44; Byte.x33];
     IappTextToSpeech.now_id := 1700000001000;
     IappTextToSpeech.now_timestamp := 1700000001001;
     IappTextToSpeech.objectURL := "blob:b" |}.

Definition two_syntheses : list IappTextToSpeech.Event :=
  [ IappTextToSpeech.TextChange "hello";
    IappTextToSpeech.Convert first_synthesis;
    IappTextToSpeech.VoiceChange IappTextToSpeech.cee;
    IappTextToSpeech.Convert second_synthesis ].

(** Two remote syntheses of the same text in the same style whose
    identifier clock readings fall in the same millisecond. *)
Definition same_millisecond_session : list IappTextToSpeech.Event :=
  [ IappTextToSpeech.TextChange "hello";
    IappTextToSpeech.Convert
      {| IappTextToSpeech.response := JS.Resolved [Byte.x49; Byte.x44; Byte.x33];
         IappTextToSpeech.now_id := 1700000000000;
         IappTextToSpeech.now_timestamp := 1700000000000;
         IappTextToSpeech.objectURL := "blob:a" |};
    IappTextToSpeech.Convert
      {| IappTextToSpeech.response := JS.Resolved [Byte.x49; Byte.x44; Byte.x33];
         IappTextToSpeech.now_id := 1700000000000;
         IappTextToSpeech.now_timestamp := 1700000000000;
         IappTextToSpeech.objectURL := "blob:b" |} ].

(** * Properties *)

(** ** Removal from a list of artifacts keyed by identifier

    Both components delete with the same filter; the facts about it are
    proved once, over any artifact type with an identifier projection. *)

Section Registry.

Context {Item : Type} (key : Item -> string).

Implicit Types (l : list Item) (i : string).

Lemma remove_length_split l i :
  (length (filter (fun r => key r ≠ i) l)
   + length (filter (fun r => key r = i) l) = length l)%nat.
Proof.
  induction l as [|r l IH]; [reflexivity|].
  rewrite !filter_cons.
  destruct (decide (key r = i)) as [Heq|Hne].
  - rewrite decide_False by (intros Hn; exact (Hn Heq)).
    simpl. lia.
  - rewrite decide_True by exact Hne.
    simpl. lia.
Qed.

Lemma remove_absent l i :
  (forall r, r ∈ l -> key r ≠ i) -> filter (fun r => key r ≠ i) l = l.
Proof.
  induction l as [|r l IH]; intros Hall; [reflexivity|].
  rewrite filter_cons, decide_True by (apply Hall; left).
  f_equal. apply IH. intros r' Hr'. apply Hall. by right.
Qed.

Lemma remove_keeps_others l i :
  filter (fun r => key r ≠ i) (filter (fun r => key r ≠ i) l)
  = filter (fun r => key r ≠ i) l.
Proof. apply list_filter_filter_l. auto. Qed.

Lemma remove_around l1 r l2 i :
  key r ≠ i ->
  filter (fun r => key r ≠ i) (l1 ++ r :: l2)
  = filter (fun r => key r ≠ i) l1 ++ r :: filter (fun r => key r ≠ i) l2.
Proof.
  intros Hne. by rewrite filter_app, filter_cons, decide_True.
Qed.

Lemma remove_keys_sublist l i :
  key <$> filter (fun r => key r ≠ i) l `sublist_of` key <$> l.
Proof. apply fmap_sublist, sublist_filter. Qed.

End Registry.

(** Unfolding of the handler monad, for proofs that run a handler on a
    symbolic state. *)
Ltac run_handler :=
  unfold Handler.exec, Handler.log, Handler.result;
  unfold Handler.bind, Handler.get, Handler.update, Handler.assign,
    Handler.call, Handler.ret;
  simpl.

(** ** Remote synthesis: empty text and failed requests *)

(** C10: with empty text the remote synthesis handler returns at once: it
    logs no call at all (no HTTP request, no [setIsLoading]) and the state,
    registry included, is the one it started from. *)
Theorem iapp_convert_empty_text_noop :
  forall (s : IappTextToSpeech.State) (h : IappTextToSpeech.Host),
    IappTextToSpeech.text s = "" ->
    IappTextToSpeech.convertTextToSpeech h s = (tt, s, []).
Proof.
  intros s h Hempty.
  unfold IappTextToSpeech.convertTextToSpeech, Handler.bind, Handler.get.
  rewrite Hempty. reflexivity.
Qed.

Lemma iapp_convert_empty_text_noop_witness :
  IappTextToSpeech.convertTextToSpeech
    {| IappTextToSpeech.response := JS.Resolved [];
       IappTextToSpeech.now_id := 0;
       IappTextToSpeech.now_timestamp := 0;
       IappTextToSpeech.objectURL := "blob:0" |}
    IappTextToSpeech.init
  = (tt, IappTextToSpeech.init, []).
Proof. apply iapp_convert_empty_text_noop. reflexivity. Defined.

(** C7: when the HTTP call is rejected, the handler issues that one
    request and no other, reports on the console and with one [alert],
    resets the loading flag, and leaves every cell but the loading flag
    as it was: the registry gains nothing. *)
Theorem iapp_convert_failure :
  forall (s : IappTextToSpeech.State) (h : IappTextToSpeech.Host) (message : string),
    JS.truthy (IappTextToSpeech.text s) = true ->
    IappTextToSpeech.response h = JS.Rejected message ->
    let s' := Handler.exec (IappTextToSpeech.convertTextToSpeech h) s in
    IappTextToSpeech.recordings s' = IappTextToSpeech.recordings s
    /\ IappTextToSpeech.isLoading s' = false
    /\ IappTextToSpeech.text s' = IappTextToSpeech.text s
    /\ IappTextToSpeech.apiKey s' = IappTextToSpeech.apiKey s
    /\ IappTextToSpeech.selectedVoice s' = IappTextToSpeech.selectedVoice s
    /\ Handler.log (IappTextToSpeech.convertTextToSpeech h) s
       = [ IappTextToSpeech.setIsLoading true;
           IappTextToSpeech.axios
             {| IappTextToSpeech.method := "get";
                IappTextToSpeech.request_url := IappTextToSpeech.getApiUrl s;
                IappTextToSpeech.params_text := IappTextToSpeech.text s;
                IappTextToSpeech.headers_apikey := IappTextToSpeech.apiKey s;
                IappTextToSpeech.responseType := "arraybuffer" |};
           IappTextToSpeech.console_error "Error converting text to speech:";
           IappTextToSpeech.alert
             "ไม่สามารถแปลงข้อความเป็นเสียงได้ โปรดตรวจสอบ API key หรือการเชื่อมต่ออินเทอร์เน็ต";
           IappTextToSpeech.setIsLoading false ].
Proof.
  intros s h message Htext Hresp.
  unfold Handler.exec, Handler.log, IappTextToSpeech.convertTextToSpeech,
    Handler.bind, Handler.get.
  rewrite Htext, Hresp. simpl. repeat split; reflexivity.
Qed.

Lemma iapp_convert_failure_witness :
  let s := Handler.exec (IappTextToSpeech.handleTextChange "hello") IappTextToSpeech.init in
  let h := {| IappTextToSpeech.response := JS.Rejected "Network Error";
              IappTextToSpeech.now_id := 5;
              IappTextToSpeech.now_timestamp := 5;
              IappTextToSpeech.objectURL := "blob:5" |} in
  IappTextToSpeech.recordings (Handler.exec (IappTextToSpeech.convertTextToSpeech h) s) = []
  /\ IappTextToSpeech.isLoading (Handler.exec (IappTextToSpeech.convertTextToSpeech h) s) = false.
Proof.
  intros s h.
  destruct (iapp_convert_failure s h "Network Error" eq_refl eq_refl)
    as (Hrec & Hload & _).
  split; [exact Hrec | exact Hload].
Defined.

(** ** Deleting from the registry *)

(** C1: in both components [deleteRecording id] shortens the list by
    exactly one when exactly one artifact carries [id], and changes
    nothing in the state when no artifact carries it. *)
Theorem deleteRecording_one_or_noop :
  (forall (s : TextToSpeech.State) (id : string),
     let s' := Handler.exec (TextToSpeech.deleteRecording id) s in
     (length (filter (fun r => TextToSpeech.RecordedItem.id r = id)
                     (TextToSpeech.recordings s)) = 1%nat ->
      S (length (TextToSpeech.recordings s')) = length (TextToSpeech.recordings s))
     /\ ((forall r, r ∈ TextToSpeech.recordings s -> TextToSpeech.RecordedItem.id r ≠ id) ->
         s' = s))
  /\
  (forall (s : IappTextToSpeech.State) (id : string),
     let s' := Handler.exec (IappTextToSpeech.deleteRecording id) s in
     (length (filter (fun r => IappTextToSpeech.RecordedItem.id r = id)
                     (IappTextToSpeech.recordings s)) = 1%nat ->
      S (length (IappTextToSpeech.recordings s')) = length (IappTextToSpeech.recordings s))
     /\ ((forall r, r ∈ IappTextToSpeech.recordings s ->
                    IappTextToSpeech.RecordedItem.id r ≠ id) ->
         s' = s)).
Proof.
  split; intros s id; unfold TextToSpeech.deleteRecording,
    IappTextToSpeech.deleteRecording, IappTextToSpeech.do_setRecordings;
    run_handler; split.
  - intros Hone.
    pose proof (remove_length_split TextToSpeech.RecordedItem.id
                  (TextToSpeech.recordings s) id) as Hsplit.
    rewrite Hone in Hsplit. lia.
  - intros Habsent. destruct s; unfold TextToSpeech.with_recordings; simpl in *.
    f_equal. by apply remove_absent.
  - intros Hone.
    pose proof (remove_length_split IappTextToSpeech.RecordedItem.id
                  (IappTextToSpeech.recordings s) id) as Hsplit.
    rewrite Hone in Hsplit. lia.
  - intros Habsent. destruct s; simpl in *.
    f_equal. by apply remove_absent.
Qed.

(** C9: in both components [deleteRecording id] keeps every artifact with
    another identifier, in the same relative order: the result is a
    subsequence of the list, it holds exactly the artifacts of the list
    with another identifier, it splits around each kept artifact as the
    list does, and the subsequence of artifacts with another identifier
    is the same before and after.  No other cell of the state changes. *)
Theorem deleteRecording_frame :
  (forall (s : TextToSpeech.State) (id : string),
     let s' := Handler.exec (TextToSpeech.deleteRecording id) s in
     let others := fun l => filter (fun r => TextToSpeech.RecordedItem.id r ≠ id) l in
     TextToSpeech.recordings s' `sublist_of` TextToSpeech.recordings s
     /\ (forall r, r ∈ TextToSpeech.recordings s' <->
                   r ∈ TextToSpeech.recordings s /\ TextToSpeech.RecordedItem.id r ≠ id)
     /\ (forall l1 r l2,
           TextToSpeech.recordings s = l1 ++ r :: l2 ->
           TextToSpeech.RecordedItem.id r ≠ id ->
           TextToSpeech.recordings s' = others l1 ++ r :: others l2)
     /\ others (TextToSpeech.recordings s') = others (TextToSpeech.recordings s)
     /\ s' = TextToSpeech.with_recordings (TextToSpeech.recordings s') s)
  /\
  (forall (s : IappTextToSpeech.State) (id : string),
     let s' := Handler.exec (IappTextToSpeech.deleteRecording id) s in
     let others := fun l => filter (fun r => IappTextToSpeech.RecordedItem.id r ≠ id) l in
     IappTextToSpeech.recordings s' `sublist_of` IappTextToSpeech.recordings s
     /\ (forall r, r ∈ IappTextToSpeech.recordings s' <->
                   r ∈ IappTextToSpeech.recordings s /\ IappTextToSpeech.RecordedItem.id r ≠ id)
     /\ (forall l1 r l2,
           IappTextToSpeech.recordings s = l1 ++ r :: l2 ->
           IappTextToSpeech.RecordedItem.id r ≠ id ->
           IappTextToSpeech.recordings s' = others l1 ++ r :: others l2)
     /\ others (IappTextToSpeech.recordings s') = others (IappTextToSpeech.recordings s)
     /\ IappTextToSpeech.text s' = IappTextToSpeech.text s
     /\ IappTextToSpeech.apiKey s' = IappTextToSpeech.apiKey s
     /\ IappTextToSpeech.isLoading s' = IappTextToSpeech.isLoading s
     /\ IappTextToSpeech.selectedVoice s' = IappTextToSpeech.selectedVoice s).
Proof.
  split; intros s id; unfold TextToSpeech.deleteRecording,
    IappTextToSpeech.deleteRecording, IappTextToSpeech.do_setRecordings;
    run_handler.
  - split; [apply sublist_filter|].
    split; [intros r; rewrite list_elem_of_filter; tauto|].
    split; [intros l1 r l2 -> Hne; by apply remove_around|].
    split; [apply (remove_keeps_others TextToSpeech.RecordedItem.id)|].
    by destruct s.
  - split; [apply sublist_filter|].
    split; [intros r; rewrite list_elem_of_filter; tauto|].
    split; [intros l1 r l2 -> Hne; by apply remove_around|].
    split; [apply (remove_keeps_others IappTextToSpeech.RecordedItem.id)|].
    by destruct s.
Qed.

(** ** Handlers that keep a part of the state

    Frame reasoning for the handler monad: each primitive keeps a view it
    does not write, and sequencing and branching keep what their parts
    keep. *)

Section Keeps.

Context {S C V : Type} (view : S -> V).

Lemma keeps_ret {A} (a : A) : Handler.keeps view (Handler.ret (C := C) a).
Proof. intros s. reflexivity. Qed.

Lemma keeps_get : Handler.keeps view (Handler.get (C := C)).
Proof. intros s. reflexivity. Qed.

Lemma keeps_call (c : C) : Handler.keeps view (Handler.call c).
Proof. intros s. reflexivity. Qed.

Lemma keeps_update (f : S -> S) (c : C) :
  (forall s, view (f s) = view s) -> Handler.keeps view (Handler.update f c).
Proof. intros Hf s. apply Hf. Qed.

Lemma keeps_assign (f : S -> S) :
  (forall s, view (f s) = view s) -> Handler.keeps view (Handler.assign (C := C) f).
Proof. intros Hf s. apply Hf. Qed.

Lemma keeps_bind {A B} (m : Handler.M S C A) (k : A -> Handler.M S C B) :
  Handler.keeps view m -> (forall a, Handler.keeps view (k a)) ->
  Handler.keeps view (Handler.bind m k).
Proof.
  intros Hm Hk s. unfold Handler.bind.
  specialize (Hm s). destruct (m s) as [[a s1] l1].
  specialize (Hk a s1). destruct (k a s1) as [[b s2] l2].
  simpl in *. congruence.
Qed.

Lemma keeps_exec {A} (m : Handler.M S C A) (s : S) :
  Handler.keeps view m -> view (Handler.exec m s) = view s.
Proof. intros Hm. apply Hm. Qed.

End Keeps.

(** Decomposition of a handler along its binds, branches and matches. *)
Ltac keeps_step :=
  first
    [ apply keeps_ret
    | apply keeps_get
    | apply keeps_call
    | apply keeps_update; intros; reflexivity
    | apply keeps_assign; intros; reflexivity
    | apply keeps_bind; [|intros ?]
    | match goal with
      | |- Handler.keeps _ (if ?b then _ else _) => destruct b
      | |- Handler.keeps _ (match ?x with _ => _ end) => destruct x
      end ].

Ltac keeps_auto := repeat keeps_step.

(** ** Additions to the registry *)

Lemma tts_stop_events_registry (stopped : option string) (h : TextToSpeech.StopHost)
    (s : TextToSpeech.State) :
  TextToSpeech.recordings (Handler.exec (TextToSpeech.stop_events stopped h) s)
  = match stopped with
    | Some text => TextToSpeech.newRecording text h :: TextToSpeech.recordings s
    | None => TextToSpeech.recordings s
    end.
Proof.
  destruct stopped as [text|]; [|reflexivity].
  unfold TextToSpeech.stop_events, TextToSpeech.ondataavailable, TextToSpeech.onstop.
  run_handler. destruct (0 <? JS.size (TextToSpeech.finalData h))%nat; reflexivity.
Qed.

Lemma tts_stop_registry (h : TextToSpeech.StopHost) (s : TextToSpeech.State) :
  TextToSpeech.recordings (Handler.exec (TextToSpeech.stop h) s)
  = match TextToSpeech.mediaRecorderRef s with
    | Some mr => TextToSpeech.newRecording (TextToSpeech.MediaRecorder.onstop_text mr) h
                 :: TextToSpeech.recordings s
    | None => TextToSpeech.recordings s
    end.
Proof.
  unfold TextToSpeech.stop, TextToSpeech.stop_call, TextToSpeech.stop_events,
    TextToSpeech.ondataavailable, TextToSpeech.onstop.
  run_handler. destruct (TextToSpeech.mediaRecorderRef s) as [mr|]; [|reflexivity].
  simpl. destruct (0 <? JS.size (TextToSpeech.finalData h))%nat; reflexivity.
Qed.

Lemma tts_prepareRecording_keeps_registry (h : TextToSpeech.CaptureHost) :
  Handler.keeps TextToSpeech.recordings (TextToSpeech.prepareRecording h).
Proof. unfold TextToSpeech.prepareRecording. keeps_auto. Qed.

Lemma tts_requestMicrophonePermission_keeps_registry (h : TextToSpeech.CaptureHost) :
  Handler.keeps TextToSpeech.recordings (TextToSpeech.requestMicrophonePermission h).
Proof.
  unfold TextToSpeech.requestMicrophonePermission.
  pose proof (tts_prepareRecording_keeps_registry h). keeps_auto; assumption.
Qed.

Lemma tts_startRecording_keeps_registry (c : TextToSpeech.State)
    (h : TextToSpeech.CaptureHost) :
  Handler.keeps TextToSpeech.recordings (TextToSpeech.startRecording c h).
Proof.
  unfold TextToSpeech.startRecording.
  pose proof (tts_prepareRecording_keeps_registry h).
  pose proof (tts_requestMicrophonePermission_keeps_registry h).
  keeps_auto; assumption.
Qed.

Lemma tts_handleSpeak_keeps_registry (h : TextToSpeech.CaptureHost) (confirmed : bool) :
  Handler.keeps TextToSpeech.recordings (TextToSpeech.handleSpeak h confirmed).
Proof.
  unfold TextToSpeech.handleSpeak.
  pose proof (fun c => tts_startRecording_keeps_registry c h).
  keeps_auto; auto.
Qed.

Lemma tts_getVoices_keeps_registry (catalog : option (list TextToSpeech.Voice.t)) :
  Handler.keeps TextToSpeech.recordings (TextToSpeech.getVoices catalog).
Proof. unfold TextToSpeech.getVoices. simpl. keeps_auto. Qed.

Lemma tts_handle_registry (e : TextToSpeech.Event) (s : TextToSpeech.State) :
  let s' := Handler.exec (TextToSpeech.handle e) s in
  TextToSpeech.recordings s' = TextToSpeech.recordings s
  \/ (exists text h,
        TextToSpeech.stop_host e = Some h
        /\ TextToSpeech.recordings s'
           = TextToSpeech.newRecording text h :: TextToSpeech.recordings s)
  \/ (exists id,
        e = TextToSpeech.Delete id
        /\ TextToSpeech.recordings s'
           = filter (fun r => TextToSpeech.RecordedItem.id r ≠ id) (TextToSpeech.recordings s)).
Proof.
  destruct e as [r|v h|h|v|v|v|v|v|h b|d|b h|h|src|id]; cbv zeta;
    unfold TextToSpeech.handle, TextToSpeech.stop_host.
  - left. apply keeps_exec. unfold TextToSpeech.checkMicrophonePermission. keeps_auto.
  - left. apply keeps_exec. unfold TextToSpeech.effect.
    pose proof (tts_getVoices_keeps_registry v).
    pose proof (tts_prepareRecording_keeps_registry h).
    keeps_auto; assumption.
  - unfold TextToSpeech.cleanup, TextToSpeech.stop_call, TextToSpeech.stop_events,
      TextToSpeech.ondataavailable, TextToSpeech.onstop.
    destruct s as [? ? ? ? ? ? ? ? ? ? sy [[[] t]|] ? ac ?]; run_handler;
      destruct sy, ac; simpl;
      try (left; reflexivity);
      right; left; exists t, h; (split; [reflexivity|]);
      destruct (0 <? JS.size (TextToSpeech.finalData h))%nat; reflexivity.
  - left. apply keeps_exec, tts_getVoices_keeps_registry.
  - left. reflexivity.
  - left. apply keeps_exec. unfold TextToSpeech.handleVoiceChange. keeps_auto.
  - left. reflexivity.
  - left. reflexivity.
  - left. apply keeps_exec, tts_handleSpeak_keeps_registry.
  - left. apply keeps_exec. unfold TextToSpeech.ondataavailable. keeps_auto.
  - unfold TextToSpeech.utterance_onend. run_handler.
    destruct b; simpl; [|left; reflexivity].
    destruct (TextToSpeech.is_recording (TextToSpeech.mediaRecorderRef s)) eqn:Hrec;
      [|left; reflexivity].
    right; left.
    destruct (TextToSpeech.mediaRecorderRef s) as [mr|] eqn:Hmr; [|discriminate].
    exists (TextToSpeech.MediaRecorder.onstop_text mr), h. split; [reflexivity|].
    pose proof (tts_stop_registry h (TextToSpeech.with_isSpeaking false s)) as Hstop.
    unfold Handler.exec in Hstop. simpl in Hstop. rewrite Hmr in Hstop.
    destruct (TextToSpeech.stop h (TextToSpeech.with_isSpeaking false s)) as [[u s1] l1].
    exact Hstop.
  - unfold TextToSpeech.handleCancel. run_handler.
    destruct (TextToSpeech.synth s); [|left; reflexivity]. simpl.
    destruct (TextToSpeech.isRecording s); simpl; [|left; reflexivity].
    destruct (TextToSpeech.is_recording (TextToSpeech.mediaRecorderRef s)) eqn:Hrec;
      [|left; reflexivity].
    right; left.
    destruct (TextToSpeech.mediaRecorderRef s) as [mr|] eqn:Hmr; [|discriminate].
    exists (TextToSpeech.MediaRecorder.onstop_text mr), h. split; [reflexivity|].
    pose proof (tts_stop_registry h (TextToSpeech.with_isSpeaking false s)) as Hstop.
    unfold Handler.exec in Hstop. simpl in Hstop. rewrite Hmr in Hstop.
    destruct (TextToSpeech.stop h (TextToSpeech.with_isSpeaking false s)) as [[u s1] l1].
    exact Hstop.
  - left. reflexivity.
  - right; right. exists id. split; reflexivity.
Qed.

Lemma iapp_handle_registry (e : IappTextToSpeech.Event) (s : IappTextToSpeech.State) :
  let s' := Handler.exec (IappTextToSpeech.handle e) s in
  IappTextToSpeech.recordings s' = IappTextToSpeech.recordings s
  \/ (exists h,
        e = IappTextToSpeech.Convert h
        /\ IappTextToSpeech.recordings s'
           = IappTextToSpeech.newRecording s h :: IappTextToSpeech.recordings s)
  \/ (exists id,
        e = IappTextToSpeech.Delete id
        /\ IappTextToSpeech.recordings s'
           = filter (fun r => IappTextToSpeech.RecordedItem.id r ≠ id)
                    (IappTextToSpeech.recordings s)).
Proof.
  destruct e as [v|v|v|h|src|id]; cbv zeta; unfold IappTextToSpeech.handle.
  - left. reflexivity.
  - left. reflexivity.
  - left. reflexivity.
  - unfold IappTextToSpeech.convertTextToSpeech. run_handler.
    destruct (JS.truthy (IappTextToSpeech.text s)); simpl; [|left; reflexivity].
    destruct (IappTextToSpeech.response h) as [data|message]; simpl.
    + right; left. exists h. split; reflexivity.
    + left. reflexivity.
  - left. reflexivity.
  - right; right. exists id. split; reflexivity.
Qed.

(** Identifiers: the decimal rendering of a clock reading determines it. *)
Lemma number_to_string_inj (a b : Z) :
  JS.number_to_string a = JS.number_to_string b -> a = b.
Proof.
  unfold JS.number_to_string. intros Heq.
  apply DecimalZ.to_int_inj.
  apply (f_equal NilEmpty.int_of_string) in Heq.
  rewrite !NilEmpty.isi in Heq. congruence.
Qed.

Lemma rec_id_inj (a b : Z) :
  "rec-" +:+ JS.number_to_string a = "rec-" +:+ JS.number_to_string b <-> a = b.
Proof.
  split; [|congruence].
  intros Heq. apply number_to_string_inj.
  exact (String.app_inj "rec-" _ _ Heq).
Qed.

(** ** Sessions over a registry

    What the two components share: every event leaves the registry as it
    is, or puts one artifact at its head whose identifier renders the
    clock reading the event carries, or filters one identifier out. *)

Section Sessions.

Context {State Event Item : Type}.
Context (recs : State -> list Item) (key : Item -> string).
Context (step : Event -> State -> State).
Context (clock : Event -> option Z) (deletes : Event -> bool).

Hypothesis step_registry : forall e s,
  recs (step e s) = recs s
  \/ (exists a t, clock e = Some t
                  /\ key a = "rec-" +:+ JS.number_to_string t
                  /\ recs (step e s) = a :: recs s)
  \/ (deletes e = true
      /\ exists i, recs (step e s) = filter (fun r => key r ≠ i) (recs s)).

Lemma session_grows_at_head (es : list Event) :
  forall s,
    Forall (fun e => deletes e = false) es ->
    exists added, recs (fold_left (fun s e => step e s) es s) = added ++ recs s.
Proof.
  induction es as [|e es IH]; intros s Hnd; simpl.
  - exists []. reflexivity.
  - inversion Hnd as [|? ? He Hes]; subst.
    destruct (IH (step e s) Hes) as [added Hadded].
    destruct (step_registry e s) as [Hsame|[(a & t & _ & _ & Hcons)|[Hdel _]]].
    + exists added. by rewrite Hadded, Hsame.
    + exists (added ++ [a]). by rewrite Hadded, Hcons, <- app_assoc.
    + congruence.
Qed.

Lemma session_ids_distinct (es : list Event) :
  forall s (seen : list Z),
    NoDup (seen ++ omap clock es) ->
    NoDup (key <$> recs s) ->
    (forall i, i ∈ key <$> recs s ->
               exists t, t ∈ seen /\ i = "rec-" +:+ JS.number_to_string t) ->
    NoDup (key <$> recs (fold_left (fun s e => step e s) es s)).
Proof.
  induction es as [|e es IH]; intros s seen Hclock Hnd Hseen; simpl; [exact Hnd|].
  assert (Hclock' : NoDup ((seen ++ from_option (fun t => [t]) [] (clock e)) ++ omap clock es)).
  { rewrite <- app_assoc. simpl in Hclock.
    destruct (clock e); simpl; exact Hclock. }
  apply (IH _ _ Hclock').
  - destruct (step_registry e s) as [Hsame|[(a & t & Ht & Hkey & Hcons)|[_ [i Hdel]]]].
    + by rewrite Hsame.
    + rewrite Hcons, fmap_cons. apply NoDup_cons_2; [|exact Hnd].
      intros Hin. destruct (Hseen _ Hin) as (t' & Ht' & Heq).
      rewrite Hkey in Heq. apply rec_id_inj in Heq. subst t'.
      simpl in Hclock. rewrite Ht in Hclock.
      apply NoDup_app in Hclock as (_ & Hdisj & _).
      apply (Hdisj t Ht'). left.
    + rewrite Hdel. eapply sublist_NoDup; [exact Hnd|apply remove_keys_sublist].
  - intros i Hi.
    destruct (step_registry e s) as [Hsame|[(a & t & Ht & Hkey & Hcons)|[_ [j Hdel]]]].
    + rewrite Hsame in Hi. destruct (Hseen _ Hi) as (t' & Ht' & Heq).
      exists t'. split; [apply elem_of_app; by left|exact Heq].
    + rewrite Hcons, fmap_cons in Hi. apply elem_of_cons in Hi as [->|Hi].
      * exists t. rewrite Ht. split; [apply elem_of_app; right; left|exact Hkey].
      * destruct (Hseen _ Hi) as (t' & Ht' & Heq).
        exists t'. split; [apply elem_of_app; by left|exact Heq].
    + rewrite Hdel in Hi.
      pose proof (elem_of_sublist _ _ _ Hi (remove_keys_sublist key (recs s) j)) as Hi'.
      destruct (Hseen _ Hi') as (t' & Ht' & Heq).
      exists t'. split; [apply elem_of_app; by left|exact Heq].
Qed.

End Sessions.

Lemma tts_step_registry (e : TextToSpeech.Event) (s : TextToSpeech.State) :
  TextToSpeech.recordings (Handler.exec (TextToSpeech.handle e) s) = TextToSpeech.recordings s
  \/ (exists a t, (TextToSpeech.now_id <$> TextToSpeech.stop_host e) = Some t
                  /\ TextToSpeech.RecordedItem.id a = "rec-" +:+ JS.number_to_string t
                  /\ TextToSpeech.recordings (Handler.exec (TextToSpeech.handle e) s)
                     = a :: TextToSpeech.recordings s)
  \/ (TextToSpeech.is_delete e = true
      /\ exists i, TextToSpeech.recordings (Handler.exec (TextToSpeech.handle e) s)
                   = filter (fun r => TextToSpeech.RecordedItem.id r ≠ i)
                            (TextToSpeech.recordings s)).
Proof.
  destruct (tts_handle_registry e s) as [Hsame|[(text & h & Hh & Hcons)|(i & -> & Hdel)]].
  - by left.
  - right; left. exists (TextToSpeech.newRecording text h), (TextToSpeech.now_id h).
    rewrite Hh. by repeat split.
  - right; right. split; [reflexivity|]. by exists i.
Qed.

Lemma iapp_step_registry (e : IappTextToSpeech.Event) (s : IappTextToSpeech.State) :
  IappTextToSpeech.recordings (Handler.exec (IappTextToSpeech.handle e) s)
  = IappTextToSpeech.recordings s
  \/ (exists a t, match e with
                  | IappTextToSpeech.Convert h => Some (IappTextToSpeech.now_id h)
                  | _ => None
                  end = Some t
                  /\ IappTextToSpeech.RecordedItem.id a = "rec-" +:+ JS.number_to_string t
                  /\ IappTextToSpeech.recordings (Handler.exec (IappTextToSpeech.handle e) s)
                     = a :: IappTextToSpeech.recordings s)
  \/ (IappTextToSpeech.is_delete e = true
      /\ exists i, IappTextToSpeech.recordings (Handler.exec (IappTextToSpeech.handle e) s)
                   = filter (fun r => IappTextToSpeech.RecordedItem.id r ≠ i)
                            (IappTextToSpeech.recordings s)).
Proof.
  destruct (iapp_handle_registry e s) as [Hsame|[(h & -> & Hcons)|(i & -> & Hdel)]].
  - by left.
  - right; left. exists (IappTextToSpeech.newRecording s h), (IappTextToSpeech.now_id h).
    by repeat split.
  - right; right. split; [reflexivity|]. by exists i.
Qed.

(** C2: every addition puts the new artifact at the head.  A recorder that
    stops (at the end of the utterance, on cancel or on cleanup), and a
    remote synthesis that succeeds, leave the registry as the new artifact
    followed by the old list, so right after any session that ends with
    such a completion the artifact of that completion is at index 0; and
    over any session without deletions the registry only grows at its
    head, so whatever was added later stands before whatever was there
    earlier. *)
Theorem registry_additions_prepend :
  (forall (s : TextToSpeech.State) (h : TextToSpeech.StopHost) (mr : TextToSpeech.MediaRecorder.t),
     TextToSpeech.mediaRecorderRef s = Some mr ->
     TextToSpeech.recordings (Handler.exec (TextToSpeech.stop h) s)
     = TextToSpeech.newRecording (TextToSpeech.MediaRecorder.onstop_text mr) h
       :: TextToSpeech.recordings s)
  /\ (forall (es : list TextToSpeech.Event) (s0 : TextToSpeech.State)
             (e : TextToSpeech.Event) (h : TextToSpeech.StopHost)
             (mr : TextToSpeech.MediaRecorder.t),
        let s := TextToSpeech.run es s0 in
        TextToSpeech.mediaRecorderRef s = Some mr ->
        TextToSpeech.MediaRecorder.state mr = TextToSpeech.recording ->
        e = TextToSpeech.UtteranceEnd true h
        \/ e = TextToSpeech.Cleanup h
        \/ (e = TextToSpeech.Cancel h
            /\ TextToSpeech.synth s = true /\ TextToSpeech.isRecording s = true) ->
        TextToSpeech.recordings (TextToSpeech.run (es ++ [e]) s0) !! 0%nat
        = Some (TextToSpeech.newRecording (TextToSpeech.MediaRecorder.onstop_text mr) h))
  /\ (forall (es : list TextToSpeech.Event) (s : TextToSpeech.State),
        Forall (fun e => TextToSpeech.is_delete e = false) es ->
        exists added,
          TextToSpeech.recordings (TextToSpeech.run es s)
          = added ++ TextToSpeech.recordings s)
  /\ (forall (es : list IappTextToSpeech.Event) (s0 : IappTextToSpeech.State)
             (h : IappTextToSpeech.Host) (data : list Byte.byte),
        let s := IappTextToSpeech.run es s0 in
        JS.truthy (IappTextToSpeech.text s) = true ->
        IappTextToSpeech.response h = JS.Resolved data ->
        IappTextToSpeech.recordings (IappTextToSpeech.run (es ++ [IappTextToSpeech.Convert h]) s0)
        = IappTextToSpeech.newRecording s h :: IappTextToSpeech.recordings s)
  /\ (forall (es : list IappTextToSpeech.Event) (s : IappTextToSpeech.State),
        Forall (fun e => IappTextToSpeech.is_delete e = false) es ->
        exists added,
          IappTextToSpeech.recordings (IappTextToSpeech.run es s)
          = added ++ IappTextToSpeech.recordings s).
Proof.
  repeat split.
  - intros s h mr Hmr. by rewrite tts_stop_registry, Hmr.
  - intros es s0 e h mr s Hmr Hstate He.
    unfold TextToSpeech.run. rewrite fold_left_app. simpl.
    fold (TextToSpeech.run es s0). fold s.
    assert (Hrec : TextToSpeech.is_recording (TextToSpeech.mediaRecorderRef s) = true).
    { rewrite Hmr. simpl. by rewrite Hstate. }
    pose proof (tts_stop_registry h (TextToSpeech.with_isSpeaking false s)) as Hstop.
    unfold Handler.exec in Hstop. simpl in Hstop. rewrite Hmr in Hstop.
    destruct He as [->|[->|(-> & Hsynth & Hisrec)]]; simpl.
    + unfold TextToSpeech.utterance_onend. run_handler. rewrite Hrec. simpl.
      destruct (TextToSpeech.stop h _) as [[u s1] l1]. simpl in *. by rewrite Hstop.
    + clear Hstop Hrec. destruct mr as [st t]. simpl in Hstate. subst st.
      destruct s as [? ? ? ? ? ? ? ? ? ? sy mref ? ac ?]. simpl in Hmr. subst mref.
      unfold TextToSpeech.cleanup, TextToSpeech.stop_call, TextToSpeech.stop_events,
        TextToSpeech.ondataavailable, TextToSpeech.onstop.
      run_handler.
      destruct sy, ac, (0 <? JS.size (TextToSpeech.finalData h))%nat; reflexivity.
    + unfold TextToSpeech.handleCancel. run_handler.
      rewrite Hsynth, Hisrec. simpl. rewrite Hrec.
      destruct (TextToSpeech.stop h _) as [[u s1] l1]. simpl in *. by rewrite Hstop.
  - intros es s Hnd. unfold TextToSpeech.run.
    exact (session_grows_at_head TextToSpeech.recordings TextToSpeech.RecordedItem.id
             (fun e s => Handler.exec (TextToSpeech.handle e) s)
             (fun e => TextToSpeech.now_id <$> TextToSpeech.stop_host e)
             TextToSpeech.is_delete tts_step_registry es s Hnd).
  - intros es s0 h data s Htext Hresp.
    unfold IappTextToSpeech.run. rewrite fold_left_app. simpl.
    fold (IappTextToSpeech.run es s0). fold s.
    unfold IappTextToSpeech.convertTextToSpeech. run_handler.
    rewrite Htext, Hresp. reflexivity.
  - intros es s Hnd. unfold IappTextToSpeech.run.
    exact (session_grows_at_head IappTextToSpeech.recordings IappTextToSpeech.RecordedItem.id
             (fun e s => Handler.exec (IappTextToSpeech.handle e) s)
             (fun e => match e with
                       | IappTextToSpeech.Convert h => Some (IappTextToSpeech.now_id h)
                       | _ => None
                       end)
             IappTextToSpeech.is_delete iapp_step_registry es s Hnd).
Qed.

(** ** Identifiers *)

Example same_millisecond_registry :
  IappTextToSpeech.recordings
    (IappTextToSpeech.run same_millisecond_session IappTextToSpeech.init)
  = [ {| IappTextToSpeech.RecordedItem.id := "rec-1700000000000";
         IappTextToSpeech.RecordedItem.text := "hello";
         IappTextToSpeech.RecordedItem.url := "blob:b";
         IappTextToSpeech.RecordedItem.timestamp := 1700000000000;
         IappTextToSpeech.RecordedItem.voiceType := IappTextToSpeech.kaitom |};
      {| IappTextToSpeech.RecordedItem.id := "rec-1700000000000";
         IappTextToSpeech.RecordedItem.text := "hello";
         IappTextToSpeech.RecordedItem.url := "blob:a";
         IappTextToSpeech.RecordedItem.timestamp := 1700000000000;
         IappTextToSpeech.RecordedItem.voiceType := IappTextToSpeech.kaitom |} ].
Proof. vm_compute. reflexivity. Qed.

(** C3, as stated, fails: the two artifacts of [same_millisecond_session]
    are distinct entries of the registry with one and the same
    identifier. *)
Lemma identifiers_collide_in_one_millisecond :
  ~ NoDup (IappTextToSpeech.RecordedItem.id <$>
             IappTextToSpeech.recordings
               (IappTextToSpeech.run same_millisecond_session IappTextToSpeech.init)).
Proof.
  rewrite same_millisecond_registry. simpl.
  intros Hnd. apply NoDup_cons_1_1 in Hnd. apply Hnd. left.
Qed.

(** C3, amended: an identifier is ["rec-"] followed by the decimal reading
    of the clock taken when the artifact is built; two artifacts have the
    same identifier exactly when those readings are equal; hence in a
    session, started from the initial state, whose identifier clock
    readings are pairwise distinct, the identifiers in the registry are
    pairwise distinct. *)
Theorem identifiers_distinct_when_clock_differs :
  (forall text h,
     TextToSpeech.RecordedItem.id (TextToSpeech.newRecording text h)
     = "rec-" +:+ JS.number_to_string (TextToSpeech.now_id h))
  /\ (forall c h,
        IappTextToSpeech.RecordedItem.id (IappTextToSpeech.newRecording c h)
        = "rec-" +:+ JS.number_to_string (IappTextToSpeech.now_id h))
  /\ (forall text1 h1 text2 h2,
        TextToSpeech.RecordedItem.id (TextToSpeech.newRecording text1 h1)
        = TextToSpeech.RecordedItem.id (TextToSpeech.newRecording text2 h2)
        <-> TextToSpeech.now_id h1 = TextToSpeech.now_id h2)
  /\ (forall c1 h1 c2 h2,
        IappTextToSpeech.RecordedItem.id (IappTextToSpeech.newRecording c1 h1)
        = IappTextToSpeech.RecordedItem.id (IappTextToSpeech.newRecording c2 h2)
        <-> IappTextToSpeech.now_id h1 = IappTextToSpeech.now_id h2)
  /\ (forall es : list TextToSpeech.Event,
        NoDup (TextToSpeech.id_clock es) ->
        NoDup (TextToSpeech.RecordedItem.id <$>
                 TextToSpeech.recordings (TextToSpeech.run es TextToSpeech.init)))
  /\ (forall es : list IappTextToSpeech.Event,
        NoDup (IappTextToSpeech.id_clock es) ->
        NoDup (IappTextToSpeech.RecordedItem.id <$>
                 IappTextToSpeech.recordings (IappTextToSpeech.run es IappTextToSpeech.init))).
Proof.
  split; [reflexivity|]. split; [reflexivity|].
  split; [intros; apply rec_id_inj|]. split; [intros; apply rec_id_inj|].
  split.
  - intros es Hclock. unfold TextToSpeech.run.
    apply (session_ids_distinct TextToSpeech.recordings TextToSpeech.RecordedItem.id
             (fun e s => Handler.exec (TextToSpeech.handle e) s)
             (fun e => TextToSpeech.now_id <$> TextToSpeech.stop_host e)
             TextToSpeech.is_delete tts_step_registry es TextToSpeech.init []).
    + exact Hclock.
    + constructor.
    + intros i Hi. simpl in Hi. by apply elem_of_nil in Hi.
  - intros es Hclock. unfold IappTextToSpeech.run.
    apply (session_ids_distinct IappTextToSpeech.recordings IappTextToSpeech.RecordedItem.id
             (fun e s => Handler.exec (IappTextToSpeech.handle e) s)
             (fun e => match e with
                       | IappTextToSpeech.Convert h => Some (IappTextToSpeech.now_id h)
                       | _ => None
                       end)
             IappTextToSpeech.is_delete iapp_step_registry es IappTextToSpeech.init []).
    + exact Hclock.
    + constructor.
    + intros i Hi. simpl in Hi. by apply elem_of_nil in Hi.
Qed.

(** ** Cancelling *)

(** Unfolding of the handlers of [TextToSpeech] down to the primitives of
    the monad, for frame proofs by decomposition. *)
Ltac tts_unfold :=
  unfold TextToSpeech.handle, TextToSpeech.checkMicrophonePermission,
    TextToSpeech.effect, TextToSpeech.cleanup, TextToSpeech.getVoices,
    TextToSpeech.handleTextChange, TextToSpeech.handleVoiceChange,
    TextToSpeech.handleRateChange, TextToSpeech.handlePitchChange,
    TextToSpeech.handleSpeak, TextToSpeech.startRecording,
    TextToSpeech.requestMicrophonePermission, TextToSpeech.prepareRecording,
    TextToSpeech.utterance_onend, TextToSpeech.handleCancel, TextToSpeech.stop,
    TextToSpeech.stop_call, TextToSpeech.stop_events, TextToSpeech.ondataavailable,
    TextToSpeech.onstop, TextToSpeech.playRecording, TextToSpeech.deleteRecording.

Lemma tts_handle_keeps_synth (e : TextToSpeech.Event) :
  (forall v h, e ≠ TextToSpeech.Effect v h) ->
  Handler.keeps TextToSpeech.synth (TextToSpeech.handle e).
Proof.
  intros Hne. destruct e; try (tts_unfold; simpl; keeps_auto).
  by destruct (Hne speechSynthesis h).
Qed.

Lemma tts_effect_sets_synth (v : list TextToSpeech.Voice.t) (h : TextToSpeech.CaptureHost)
    (s : TextToSpeech.State) :
  TextToSpeech.synth (Handler.exec (TextToSpeech.effect (Some v) h) s) = true.
Proof.
  unfold TextToSpeech.effect, Handler.exec.
  unfold Handler.bind at 1. simpl. unfold Handler.bind at 1. simpl.
  assert (Hk : Handler.keeps TextToSpeech.synth
                 (Handler.bind (TextToSpeech.getVoices (Some v))
                    (fun _ => if TextToSpeech.truthy_permission (TextToSpeech.hasMicPermission s)
                              then Handler.bind (TextToSpeech.prepareRecording h)
                                     (fun _ => Handler.ret tt)
                              else Handler.ret tt))).
  { tts_unfold. simpl. keeps_auto. }
  specialize (Hk (TextToSpeech.with_synth true s)).
  destruct (Handler.bind _ _ _) as [[u s1] l1]. simpl in *. exact Hk.
Qed.

Lemma tts_speaking_engine_step (e : TextToSpeech.Event) (s : TextToSpeech.State) :
  engine_present e ->
  (TextToSpeech.isSpeaking s = true -> TextToSpeech.synth s = true) ->
  TextToSpeech.isSpeaking (Handler.exec (TextToSpeech.handle e) s) = true ->
  TextToSpeech.synth (Handler.exec (TextToSpeech.handle e) s) = true.
Proof.
  intros Hengine Hinv.
  destruct e as [r|[v|] h|h|v|v|v|v|v|h b|d|b h|h|src|id];
    try (by destruct Hengine);
    try (intros _; apply tts_effect_sets_synth).
  all: rewrite (keeps_exec TextToSpeech.synth) by (apply tts_handle_keeps_synth; congruence).
  all: try (rewrite (keeps_exec TextToSpeech.isSpeaking) by (tts_unfold; simpl; keeps_auto);
            exact Hinv).
  - (* Speak *)
    unfold TextToSpeech.handle, TextToSpeech.handleSpeak, Handler.exec.
    unfold Handler.bind at 1. simpl.
    destruct (TextToSpeech.synth s); [reflexivity|]. simpl. exact Hinv.
  - (* UtteranceEnd *)
    unfold TextToSpeech.handle, TextToSpeech.utterance_onend, Handler.exec.
    unfold Handler.bind at 1. simpl. unfold Handler.bind at 1. simpl.
    assert (Hk : Handler.keeps TextToSpeech.isSpeaking (TextToSpeech.stop h))
      by (tts_unfold; keeps_auto).
    destruct (b && _).
    + specialize (Hk (TextToSpeech.with_isSpeaking false s)).
      destruct (TextToSpeech.stop h _) as [[u s1] l1]. simpl in *. congruence.
    + simpl. discriminate.
  - (* Cancel *)
    unfold TextToSpeech.handle, TextToSpeech.handleCancel, Handler.exec.
    unfold Handler.bind at 1. simpl.
    destruct (TextToSpeech.synth s); [reflexivity|]. simpl. exact Hinv.
Qed.

(** In a session on a host with an engine, started from the initial
    state, [isSpeaking] implies that [synth.current] is set: the
    hypothesis of the cancel theorem holds whenever a synthesis is in
    progress. *)
Lemma tts_speaking_implies_engine (es : list TextToSpeech.Event) :
  Forall engine_present es ->
  let s := TextToSpeech.run es TextToSpeech.init in
  TextToSpeech.isSpeaking s = true -> TextToSpeech.synth s = true.
Proof.
  induction es as [|e es IH] using rev_ind; intros Hengine; simpl.
  - discriminate.
  - apply Forall_app in Hengine as [Hes He]. inversion He; subst.
    unfold TextToSpeech.run. rewrite fold_left_app. simpl.
    apply tts_speaking_engine_step; [assumption|]. apply IH, Hes.
Qed.

(** With the engine present, [handleCancel] ends with [isSpeaking] false;
    and when a capture is open it stops the recorder, which wraps the
    buffered chunks (with the data of the last [dataavailable] event, when
    that is not empty) into one blob, and the artifact built for that blob
    is put at the head of the registry. *)
Lemma tts_handleCancel_with_engine :
  forall (s : TextToSpeech.State) (h : TextToSpeech.StopHost),
    TextToSpeech.synth s = true ->
    let s' := Handler.exec (TextToSpeech.handleCancel h) s in
    TextToSpeech.isSpeaking s' = false
    /\ (forall mr : TextToSpeech.MediaRecorder.t,
          TextToSpeech.isRecording s = true ->
          TextToSpeech.mediaRecorderRef s = Some mr ->
          TextToSpeech.MediaRecorder.state mr = TextToSpeech.recording ->
          let chunks :=
            TextToSpeech.audioChunksRef s
            ++ (if (0 <? JS.size (TextToSpeech.finalData h))%nat
                then [TextToSpeech.finalData h] else []) in
          TextToSpeech.recordings s'
          = {| TextToSpeech.RecordedItem.id :=
                 "rec-" +:+ JS.number_to_string (TextToSpeech.now_id h);
               TextToSpeech.RecordedItem.text := TextToSpeech.MediaRecorder.onstop_text mr;
               TextToSpeech.RecordedItem.url := TextToSpeech.objectURL h;
               TextToSpeech.RecordedItem.timestamp := TextToSpeech.now_timestamp h |}
            :: TextToSpeech.recordings s
          /\ Handler.log (TextToSpeech.handleCancel h) s
             = [ TextToSpeech.synth_cancel;
                 TextToSpeech.setIsSpeaking false;
                 TextToSpeech.mediaRecorder_stop;
                 TextToSpeech.createObjectURL (JS.new_Blob (JS.bytes <$> chunks) "audio/wav");
                 TextToSpeech.setRecordings;
                 TextToSpeech.stopTracks;
                 TextToSpeech.setIsRecording false ]
          /\ TextToSpeech.isRecording s' = false
          /\ TextToSpeech.is_recording (TextToSpeech.mediaRecorderRef s') = false).
Proof.
  intros s h Hsynth.
  destruct s as [? ? ? ? ? isRec ? ? ? ? sy mref chunks0 ? ?]. simpl in Hsynth. subst sy.
  unfold TextToSpeech.handleCancel, TextToSpeech.stop, TextToSpeech.stop_call,
    TextToSpeech.stop_events, TextToSpeech.ondataavailable, TextToSpeech.onstop.
  split.
  - run_handler.
    destruct isRec, mref as [[[] t]|]; simpl;
      try reflexivity;
      destruct (0 <? JS.size (TextToSpeech.finalData h))%nat; reflexivity.
  - intros [st t] HisRec Hmr Hstate. simpl in HisRec, Hmr, Hstate. subst isRec mref st.
    run_handler.
    destruct (0 <? JS.size (TextToSpeech.finalData h))%nat; simpl;
      rewrite ?app_nil_r; repeat split; reflexivity.
Qed.

(** C6: at any point of a session where a synthesis is in progress
    ([isSpeaking]), [handleCancel] ends with [isSpeaking] false; and when a
    capture is open ([isRecording], and the recorder in state [recording])
    the buffered chunks, with the data of the last [dataavailable] event
    when that is not empty, are wrapped into one blob and the artifact
    built for that blob is put at the head of the registry, the capture
    being closed. *)
Theorem cancel_mid_synthesis :
  forall (es : list TextToSpeech.Event) (h : TextToSpeech.StopHost),
    Forall engine_present es ->
    let s := TextToSpeech.run es TextToSpeech.init in
    TextToSpeech.isSpeaking s = true ->
    let s' := Handler.exec (TextToSpeech.handleCancel h) s in
    TextToSpeech.isSpeaking s' = false
    /\ (forall mr : TextToSpeech.MediaRecorder.t,
          TextToSpeech.isRecording s = true ->
          TextToSpeech.mediaRecorderRef s = Some mr ->
          TextToSpeech.MediaRecorder.state mr = TextToSpeech.recording ->
          let chunks :=
            TextToSpeech.audioChunksRef s
            ++ (if (0 <? JS.size (TextToSpeech.finalData h))%nat
                then [TextToSpeech.finalData h] else []) in
          TextToSpeech.recordings s'
          = {| TextToSpeech.RecordedItem.id :=
                 "rec-" +:+ JS.number_to_string (TextToSpeech.now_id h);
               TextToSpeech.RecordedItem.text := TextToSpeech.MediaRecorder.onstop_text mr;
               TextToSpeech.RecordedItem.url := TextToSpeech.objectURL h;
               TextToSpeech.RecordedItem.timestamp := TextToSpeech.now_timestamp h |}
            :: TextToSpeech.recordings s
          /\ Handler.log (TextToSpeech.handleCancel h) s
             = [ TextToSpeech.synth_cancel;
                 TextToSpeech.setIsSpeaking false;
                 TextToSpeech.mediaRecorder_stop;
                 TextToSpeech.createObjectURL (JS.new_Blob (JS.bytes <$> chunks) "audio/wav");
                 TextToSpeech.setRecordings;
                 TextToSpeech.stopTracks;
                 TextToSpeech.setIsRecording false ]
          /\ TextToSpeech.isRecording s' = false
          /\ TextToSpeech.is_recording (TextToSpeech.mediaRecorderRef s') = false).
Proof.
  intros es h Hengine s Hspeaking.
  apply tts_handleCancel_with_engine.
  by apply tts_speaking_implies_engine.
Qed.

Lemma cancel_mid_synthesis_witness :
  TextToSpeech.isSpeaking
    (Handler.exec (TextToSpeech.handleCancel stop_at_123)
       (TextToSpeech.run capturing_session TextToSpeech.init)) = false
  /\ TextToSpeech.recordings
       (Handler.exec (TextToSpeech.handleCancel stop_at_123)
          (TextToSpeech.run capturing_session TextToSpeech.init))
     = [ {| TextToSpeech.RecordedItem.id := "rec-1700000000123";
            TextToSpeech.RecordedItem.text := "hello";
            TextToSpeech.RecordedItem.url := "blob:http://localhost:3000/1";
            TextToSpeech.RecordedItem.timestamp := 1700000000124 |} ].
Proof.
  assert (Hengine : Forall engine_present capturing_session)
    by (repeat constructor).
  destruct (cancel_mid_synthesis capturing_session stop_at_123 Hengine eq_refl)
    as [Hspeaking Hcapture].
  split; [exact Hspeaking|].
  destruct (Hcapture {| TextToSpeech.MediaRecorder.state := TextToSpeech.recording;
                        TextToSpeech.MediaRecorder.onstop_text := "hello" |}
              eq_refl eq_refl eq_refl) as [Hregistry _].
  exact Hregistry.
Defined.

(** ** Microphone denied *)

(** C8: when the microphone is not yet granted and the permission request
    is rejected, [startRecording] returns [false] and its last call is an
    [alert]; [handleSpeak] then asks for confirmation.  If the user
    declines, nothing is spoken and the only change is the recorded
    denial.  If the user confirms, the utterance is spoken with a
    completion handler that knows no recording was started, and the
    registry is the same after the speak request, after the utterance
    ends and after a cancel. *)
Theorem microphone_denied :
  forall (c : TextToSpeech.State) (h : TextToSpeech.CaptureHost) (message : string),
    TextToSpeech.truthy_permission (TextToSpeech.hasMicPermission c) = false ->
    TextToSpeech.permissionStream h = JS.Rejected message ->
    let denial :=
      [ TextToSpeech.getUserMedia;
        TextToSpeech.console_error "ไม่สามารถเข้าถึงไมโครโฟนได้:";
        TextToSpeech.setHasMicPermission false;
        TextToSpeech.alert "ไม่สามารถบันทึกเสียงได้เนื่องจากไม่ได้รับอนุญาตให้ใช้ไมโครโฟน" ] in
    let question :=
      TextToSpeech.confirm "ไม่สามารถบันทึกเสียงได้ คุณต้องการพูดโดยไม่บันทึกหรือไม่?" in
    Handler.result (TextToSpeech.startRecording c h) c = false
    /\ Handler.log (TextToSpeech.startRecording c h) c = denial
    /\ (TextToSpeech.synth c = true ->
        JS.truthy (TextToSpeech.text c) = true ->
        TextToSpeech.isSpeaking c = false ->
        TextToSpeech.isRecording c = false ->
        let declined := Handler.exec (TextToSpeech.handleSpeak h false) c in
        let confirmed := Handler.exec (TextToSpeech.handleSpeak h true) c in
        Handler.log (TextToSpeech.handleSpeak h false) c = denial ++ [question]
        /\ declined = TextToSpeech.with_hasMicPermission (Some false) c
        /\ Handler.log (TextToSpeech.handleSpeak h true) c
           = denial ++ [ question;
                         TextToSpeech.setIsSpeaking true;
                         TextToSpeech.synth_speak (TextToSpeech.build_utterance c false) ]
        /\ confirmed
           = TextToSpeech.with_isSpeaking true (TextToSpeech.with_hasMicPermission (Some false) c)
        /\ (forall sh : TextToSpeech.StopHost,
              TextToSpeech.recordings
                (Handler.exec (TextToSpeech.utterance_onend false sh) confirmed)
              = TextToSpeech.recordings c
              /\ TextToSpeech.recordings
                   (Handler.exec (TextToSpeech.handleCancel sh) confirmed)
                 = TextToSpeech.recordings c)).
Proof.
  intros c h message Hperm Hreject.
  destruct c as [? ? ? sp ? isRec perm ? ? ? sy ? ? ? ?]. simpl in Hperm.
  unfold TextToSpeech.startRecording, TextToSpeech.requestMicrophonePermission.
  split; [|split].
  - run_handler. rewrite Hperm, Hreject. reflexivity.
  - run_handler. rewrite Hperm, Hreject. reflexivity.
  - simpl. intros -> Htext -> ->.
    unfold TextToSpeech.handleSpeak, TextToSpeech.startRecording,
      TextToSpeech.requestMicrophonePermission, TextToSpeech.utterance_onend,
      TextToSpeech.handleCancel.
    run_handler. rewrite Htext, Hperm, Hreject. simpl.
    repeat split; reflexivity.
Qed.

(** ** The synthesis request *)

Lemma tts_startRecording_silent (c : TextToSpeech.State) (h : TextToSpeech.CaptureHost)
    (s : TextToSpeech.State) :
  TextToSpeech.spoken (Handler.log (TextToSpeech.startRecording c h) s) = [].
Proof.
  unfold TextToSpeech.startRecording, TextToSpeech.requestMicrophonePermission,
    TextToSpeech.prepareRecording.
  destruct h as [[?|?] [?|?] [?|?] [?|?]];
    destruct s as [? ? ? ? ? ? ? ? ? ? ? ? ? [|] [|]];
    destruct (TextToSpeech.truthy_permission (TextToSpeech.hasMicPermission c)) eqn:Hperm;
    run_handler; rewrite ?Hperm; reflexivity.
Qed.

Lemma tts_build_utterance_fields (c : TextToSpeech.State) (started : bool) :
  let u := TextToSpeech.build_utterance c started in
  TextToSpeech.Utterance.text u = TextToSpeech.text c
  /\ TextToSpeech.Utterance.rate u = TextToSpeech.rate c
  /\ TextToSpeech.Utterance.pitch u = TextToSpeech.pitch c
  /\ TextToSpeech.Utterance.volume u = 1.0%float
  /\ TextToSpeech.Utterance.lang u
     = (if TextToSpeech.isThaiVoice c then
          match TextToSpeech.find_voice c with
          | Some voice => TextToSpeech.Voice.lang voice
          | None => "th-TH"
          end
        else "")
  /\ TextToSpeech.Utterance.voice u = TextToSpeech.find_voice c.
Proof.
  unfold TextToSpeech.build_utterance, TextToSpeech.convertTextToSpeech.
  destruct (TextToSpeech.isThaiVoice c), (TextToSpeech.find_voice c); simpl;
    repeat split; reflexivity.
Qed.

Lemma tts_handleSpeak_spoken (c : TextToSpeech.State) (h : TextToSpeech.CaptureHost)
    (confirmed : bool) :
  TextToSpeech.spoken (Handler.log (TextToSpeech.handleSpeak h confirmed) c) = []
  \/ exists started,
       TextToSpeech.spoken (Handler.log (TextToSpeech.handleSpeak h confirmed) c)
       = [TextToSpeech.build_utterance c started].
Proof.
  pose proof (tts_startRecording_silent c h c) as Hsilent.
  unfold TextToSpeech.handleSpeak, Handler.log in *.
  unfold Handler.bind, Handler.get, Handler.update, Handler.call, Handler.ret.
  destruct (_ && _ && _); [|left; reflexivity].
  destruct (TextToSpeech.isRecording c); simpl.
  - right. exists true. reflexivity.
  - destruct (TextToSpeech.startRecording c h c) as [[started s1] l1].
    simpl in Hsilent.
    destruct started, confirmed; simpl;
      unfold TextToSpeech.spoken in *; rewrite ?omap_app, Hsilent; simpl;
      first [ left; reflexivity | right; eexists; reflexivity ].
Qed.

Example thai_session_request :
  TextToSpeech.spoken
    (Handler.log (TextToSpeech.handleSpeak granted false)
       (TextToSpeech.run thai_session TextToSpeech.init))
  = [ {| TextToSpeech.Utterance.text := "hello";
         TextToSpeech.Utterance.rate := 1.5%float;
         TextToSpeech.Utterance.pitch := 0x1.199999999999ap+0%float;
         TextToSpeech.Utterance.volume := 1.0%float;
         TextToSpeech.Utterance.lang := "th-TH";
         TextToSpeech.Utterance.voice := Some kanya;
         TextToSpeech.Utterance.onend := Some true |} ].
Proof. vm_compute. reflexivity. Qed.

Example english_session_request :
  TextToSpeech.spoken
    (Handler.log (TextToSpeech.handleSpeak granted false)
       (TextToSpeech.run english_session TextToSpeech.init))
  = [ {| TextToSpeech.Utterance.text := "hello";
         TextToSpeech.Utterance.rate := 1.5%float;
         TextToSpeech.Utterance.pitch := 0x1.199999999999ap+0%float;
         TextToSpeech.Utterance.volume := 1.0%float;
         TextToSpeech.Utterance.lang := "";
         TextToSpeech.Utterance.voice := Some samantha;
         TextToSpeech.Utterance.onend := Some true |} ].
Proof. vm_compute. reflexivity. Qed.

(** C4, as stated, fails: with an English voice selected (no Thai voice),
    the request that is spoken has its language unset, not ["th-TH"]. *)
Lemma english_request_language_is_not_the_default :
  TextToSpeech.isThaiVoice (TextToSpeech.run english_session TextToSpeech.init) = false
  /\ TextToSpeech.Utterance.lang <$>
       TextToSpeech.spoken
         (Handler.log (TextToSpeech.handleSpeak granted false)
            (TextToSpeech.run english_session TextToSpeech.init))
     ≠ ["th-TH"].
Proof.
  split; [vm_compute; reflexivity|].
  rewrite english_session_request. simpl. discriminate.
Qed.

(** C4, amended: the helper gives unspecified fields the defaults rate
    1.0, pitch 1.0, volume 1.0 and language ["th-TH"]; the request
    [handleSpeak] hands to the engine carries the current text, rate and
    pitch and volume 1.0; when the Thai-voice flag is set its language is
    the selected voice's tag if that voice is in the list and ["th-TH"]
    otherwise; when the flag is not set its language is left unset. *)
Theorem speech_request_settings :
  (forall text : string,
     TextToSpeech.convertTextToSpeech
       {| TextToSpeech.SpeechOptions.text := text;
          TextToSpeech.SpeechOptions.rate := None;
          TextToSpeech.SpeechOptions.pitch := None;
          TextToSpeech.SpeechOptions.volume := None;
          TextToSpeech.SpeechOptions.lang := None |}
     = {| TextToSpeech.Utterance.text := text;
          TextToSpeech.Utterance.rate := 1.0%float;
          TextToSpeech.Utterance.pitch := 1.0%float;
          TextToSpeech.Utterance.volume := 1.0%float;
          TextToSpeech.Utterance.lang := "th-TH";
          TextToSpeech.Utterance.voice := None;
          TextToSpeech.Utterance.onend := None |})
  /\ (forall (options : TextToSpeech.SpeechOptions.t) (r p : float) (l : string),
        TextToSpeech.SpeechOptions.rate options = Some r ->
        TextToSpeech.SpeechOptions.pitch options = Some p ->
        TextToSpeech.SpeechOptions.lang options = Some l ->
        let u := TextToSpeech.convertTextToSpeech options in
        TextToSpeech.Utterance.rate u = r
        /\ TextToSpeech.Utterance.pitch u = p
        /\ TextToSpeech.Utterance.lang u = l)
  /\ (forall (c : TextToSpeech.State) (h : TextToSpeech.CaptureHost) (confirmed : bool),
        let requests :=
          TextToSpeech.spoken (Handler.log (TextToSpeech.handleSpeak h confirmed) c) in
        requests = []
        \/ exists u,
             requests = [u]
             /\ TextToSpeech.Utterance.text u = TextToSpeech.text c
             /\ TextToSpeech.Utterance.rate u = TextToSpeech.rate c
             /\ TextToSpeech.Utterance.pitch u = TextToSpeech.pitch c
             /\ TextToSpeech.Utterance.volume u = 1.0%float
             /\ TextToSpeech.Utterance.lang u
                = (if TextToSpeech.isThaiVoice c then
                     match TextToSpeech.find_voice c with
                     | Some voice => TextToSpeech.Voice.lang voice
                     | None => "th-TH"
                     end
                   else "")
             /\ TextToSpeech.Utterance.voice u = TextToSpeech.find_voice c)
  /\ (forall (c : TextToSpeech.State) (h : TextToSpeech.CaptureHost) (confirmed : bool),
        TextToSpeech.synth c = true ->
        JS.truthy (TextToSpeech.text c) = true ->
        TextToSpeech.isSpeaking c = false ->
        TextToSpeech.isRecording c = true ->
        TextToSpeech.spoken (Handler.log (TextToSpeech.handleSpeak h confirmed) c)
        = [TextToSpeech.build_utterance c true]).
Proof.
  split; [reflexivity|]. split; [|split].
  - intros options r p l Hr Hp Hl. unfold TextToSpeech.convertTextToSpeech. simpl.
    rewrite Hr, Hp, Hl. repeat split; reflexivity.
  - intros c h confirmed requests. subst requests.
    destruct (tts_handleSpeak_spoken c h confirmed) as [Hnone|[started Hone]];
      [by left|right].
    exists (TextToSpeech.build_utterance c started).
    split; [exact Hone|]. apply tts_build_utterance_fields.
  - intros c h confirmed Hsynth Htext Hspeaking Hrec.
    unfold TextToSpeech.handleSpeak. run_handler.
    rewrite Hsynth, Htext, Hspeaking, Hrec. reflexivity.
Qed.

(** ** The voice catalog *)

Lemma prefix_app (t s : string) :
  String.prefix t s = true <-> exists b, s = t +:+ b.
Proof.
  revert s. induction t as [|c t IH]; intros s.
  - split; [intros _; by exists s|intros _; by destruct s].
  - destruct s as [|d s]; simpl.
    + split; [discriminate|intros [b Hb]; discriminate].
    + destruct (Ascii.ascii_dec c d) as [->|Hne].
      * rewrite IH. split; intros [b Hb]; exists b; [by rewrite Hb|].
        by injection Hb.
      * split; [discriminate|intros [b Hb]; injection Hb; congruence].
Qed.

(** [includes] is containment: the searched string occurs somewhere. *)
Lemma includes_occurs (t s : string) :
  JS.includes t s = true <-> exists a b, s = a +:+ t +:+ b.
Proof.
  induction s as [|d s IH]; cbn [JS.includes].
  - rewrite orb_false_r, prefix_app. split.
    + intros [b Hb]. by exists "", b.
    + intros (a & b & Hab). destruct a; [by exists b|discriminate].
  - rewrite orb_true_iff, prefix_app, IH. split.
    + intros [[b Hb]|(a & b & Hab)].
      * by exists "", b.
      * exists (String d a), b. by rewrite Hab.
    + intros (a & b & Hab). destruct a as [|c a].
      * left. by exists b.
      * right. exists a, b. by injection Hab.
Qed.

(** What [getVoices] publishes: the voices of the catalog whose lowered
    language tag contains th, en or ko, in catalog order. *)
Lemma tts_getVoices_voices (catalog : option (list TextToSpeech.Voice.t))
    (s : TextToSpeech.State) :
  let s' := Handler.exec (TextToSpeech.getVoices catalog) s in
  TextToSpeech.voices s'
  = filter (fun voice => Is_true (TextToSpeech.supportedLang voice)) (default [] catalog)
  /\ (forall v, v ∈ TextToSpeech.voices s' <->
                v ∈ default [] catalog
                /\ exists family, family ∈ ["th"; "en"; "ko"]
                    /\ exists a b, JS.toLowerCase (TextToSpeech.Voice.lang v)
                                   = a +:+ family +:+ b).
Proof.
  assert (Hv : TextToSpeech.voices (Handler.exec (TextToSpeech.getVoices catalog) s)
               = filter (fun voice => Is_true (TextToSpeech.supportedLang voice))
                        (default [] catalog)).
  { unfold TextToSpeech.getVoices. run_handler.
    destruct (filter _ _) as [|first rest] eqn:Hf; [reflexivity|]. run_handler.
    destruct (if JS.includes "th" (TextToSpeech.Voice.lang first) then _ else _);
      reflexivity. }
  split; [exact Hv|].
  intros v. cbv zeta. rewrite Hv, list_elem_of_filter.
  unfold TextToSpeech.supportedLang.
  rewrite Is_true_true, !orb_true_iff, !includes_occurs.
  split.
  - intros [[[H|H]|H] Hin]; (split; [exact Hin|]);
      [exists "th"|exists "en"|exists "ko"]; (split; [repeat constructor|exact H]).
  - intros [Hin (family & Hfam & H)]. split; [|exact Hin].
    repeat (apply elem_of_cons in Hfam as [->|Hfam]); [tauto..|].
    by apply elem_of_nil in Hfam.
Qed.

(** The default [getVoices] selects, by the test the code makes: the
    first published voice whose tag, as given, contains [th]; failing
    that, the first published voice; with nothing published the selection
    and the Thai flag stay as they were. *)
Lemma tts_getVoices_selection (catalog : option (list TextToSpeech.Voice.t))
    (s : TextToSpeech.State) :
  let s' := Handler.exec (TextToSpeech.getVoices catalog) s in
  match TextToSpeech.voices s' with
  | [] =>
      s' = TextToSpeech.with_voices [] s
      /\ Handler.log (TextToSpeech.getVoices catalog) s = [TextToSpeech.setVoices []]
  | first :: _ =>
      match List.find (fun v => JS.includes "th" (TextToSpeech.Voice.lang v))
                      (TextToSpeech.voices s') with
      | Some thaiVoice =>
          TextToSpeech.selectedVoice s' = TextToSpeech.Voice.voiceURI thaiVoice
          /\ TextToSpeech.isThaiVoice s' = true
      | None =>
          TextToSpeech.selectedVoice s' = TextToSpeech.Voice.voiceURI first
          /\ TextToSpeech.isThaiVoice s' = TextToSpeech.isThaiVoice s
      end
  end.
Proof.
  cbv zeta. rewrite (proj1 (tts_getVoices_voices catalog s)).
  unfold TextToSpeech.getVoices. run_handler.
  destruct (filter _ _) as [|first rest] eqn:Hf; [split; reflexivity|].
  run_handler.
  destruct (JS.includes "th" (TextToSpeech.Voice.lang first)); [split; reflexivity|].
  destruct (List.find _ rest); split; reflexivity.
Qed.

(** C5, at the failing input: both voices pass the filter, the Thai one
    because the filter lowers the tag; the test for the default does not
    lower it, so the English voice stays selected and the Thai flag stays
    unset. *)
Theorem getVoices_uppercase_thai_not_selected :
  let s := Handler.exec (TextToSpeech.getVoices (Some [samantha; narisa_upper]))
             TextToSpeech.init in
  TextToSpeech.voices s = [samantha; narisa_upper]
  /\ TextToSpeech.supportedLang narisa_upper = true
  /\ JS.includes "th" (JS.toLowerCase (TextToSpeech.Voice.lang narisa_upper)) = true
  /\ TextToSpeech.selectedVoice s = TextToSpeech.Voice.voiceURI samantha
  /\ TextToSpeech.isThaiVoice s = false.
Proof. vm_compute. repeat split; reflexivity. Qed.

(** ** Instances on concrete sessions *)

Lemma deleteRecording_one_or_noop_witness :
  length (IappTextToSpeech.recordings
            (Handler.exec (IappTextToSpeech.deleteRecording "rec-1700000000000")
               (IappTextToSpeech.run two_syntheses IappTextToSpeech.init))) = 1%nat
  /\ Handler.exec (IappTextToSpeech.deleteRecording "rec-1")
       (IappTextToSpeech.run two_syntheses IappTextToSpeech.init)
     = IappTextToSpeech.run two_syntheses IappTextToSpeech.init
  /\ Handler.exec (TextToSpeech.deleteRecording "rec-1") TextToSpeech.init
     = TextToSpeech.init.
Proof.
  destruct deleteRecording_one_or_noop as [Htts Hiapp].
  split; [|split].
  - destruct (Hiapp (IappTextToSpeech.run two_syntheses IappTextToSpeech.init)
                "rec-1700000000000") as [Hone _].
    exact (Nat.succ_inj _ 1%nat (Hone eq_refl)).
  - destruct (Hiapp (IappTextToSpeech.run two_syntheses IappTextToSpeech.init) "rec-1")
      as [_ Habsent].
    apply Habsent. intros r Hr. vm_compute in Hr.
    repeat (apply elem_of_cons in Hr as [->|Hr]); [discriminate..|].
    by apply elem_of_nil in Hr.
  - destruct (Htts TextToSpeech.init "rec-1") as [_ Habsent].
    apply Habsent. intros r Hr. by apply elem_of_nil in Hr.
Defined.

Lemma deleteRecording_frame_witness :
  IappTextToSpeech.RecordedItem.url <$>
    IappTextToSpeech.recordings
      (Handler.exec (IappTextToSpeech.deleteRecording "rec-1700000001000")
         (IappTextToSpeech.run two_syntheses IappTextToSpeech.init))
  = ["blob:a"].
Proof.
  destruct deleteRecording_frame as [_ Hiapp].
  destruct (Hiapp (IappTextToSpeech.run two_syntheses IappTextToSpeech.init)
              "rec-1700000001000") as (_ & _ & Hsplit & _).
  rewrite (Hsplit
             [ {| IappTextToSpeech.RecordedItem.id := "rec-1700000001000";
                  IappTextToSpeech.RecordedItem.text := "hello";
                  IappTextToSpeech.RecordedItem.url := "blob:b";
                  IappTextToSpeech.RecordedItem.timestamp := 1700000001001;
                  IappTextToSpeech.RecordedItem.voiceType := IappTextToSpeech.cee |} ]
             {| IappTextToSpeech.RecordedItem.id := "rec-1700000000000";
                IappTextToSpeech.RecordedItem.text := "hello";
                IappTextToSpeech.RecordedItem.url := "blob:a";
                IappTextToSpeech.RecordedItem.timestamp := 1700000000000;
                IappTextToSpeech.RecordedItem.voiceType := IappTextToSpeech.kaitom |}
             [] eq_refl).
  - reflexivity.
  - discriminate.
Defined.

Lemma registry_additions_prepend_witness :
  IappTextToSpeech.RecordedItem.id <$>
    IappTextToSpeech.recordings (IappTextToSpeech.run two_syntheses IappTextToSpeech.init)
  = ["rec-1700000001000"; "rec-1700000000000"]
  /\ TextToSpeech.RecordedItem.id <$>
       TextToSpeech.recordings
         (TextToSpeech.run (capturing_session ++ [TextToSpeech.UtteranceEnd true stop_at_123])
            TextToSpeech.init)
     = ["rec-1700000000123"].
Proof.
  destruct registry_additions_prepend as (_ & Htts & _ & Hiapp & _).
  split.
  - change two_syntheses with
      (take 3 two_syntheses ++ [IappTextToSpeech.Convert second_synthesis]).
    rewrite (Hiapp (take 3 two_syntheses) IappTextToSpeech.init second_synthesis
               [Byte.x49; Byte.x44; Byte.x33] eq_refl eq_refl).
    reflexivity.
  - pose proof (Htts capturing_session TextToSpeech.init
                  (TextToSpeech.UtteranceEnd true stop_at_123) stop_at_123
                  {| TextToSpeech.MediaRecorder.state := TextToSpeech.recording;
                     TextToSpeech.MediaRecorder.onstop_text := "hello" |}
                  eq_refl eq_refl (or_introl eq_refl)) as Hhead.
    destruct (TextToSpeech.recordings _) as [|a [|b l]] eqn:Hrecs;
      [discriminate| |vm_compute in Hrecs; discriminate].
    simpl in Hhead. injection Hhead as ->. reflexivity.
Defined.

Lemma identifiers_distinct_when_clock_differs_witness :
  NoDup (IappTextToSpeech.RecordedItem.id <$>
           IappTextToSpeech.recordings
             (IappTextToSpeech.run two_syntheses IappTextToSpeech.init))
  /\ NoDup (TextToSpeech.RecordedItem.id <$>
              TextToSpeech.recordings
                (TextToSpeech.run
                   (capturing_session ++ [TextToSpeech.Cancel stop_at_123])
                   TextToSpeech.init)).
Proof.
  destruct identifiers_distinct_when_clock_differs as (_ & _ & _ & _ & Htts & Hiapp).
  split.
  - apply Hiapp.
    apply (bool_decide_unpack (NoDup (IappTextToSpeech.id_clock two_syntheses))).
    vm_compute. exact I.
  - apply Htts.
    apply (bool_decide_unpack
             (NoDup (TextToSpeech.id_clock
                       (capturing_session ++ [TextToSpeech.Cancel stop_at_123])))).
    vm_compute. exact I.
Defined.

Lemma microphone_denied_witness :
  Handler.result
    (TextToSpeech.startRecording (TextToSpeech.run refused_session TextToSpeech.init) refused)
    (TextToSpeech.run refused_session TextToSpeech.init) = false
  /\ TextToSpeech.isSpeaking
       (Handler.exec (TextToSpeech.handleSpeak refused false)
          (TextToSpeech.run refused_session TextToSpeech.init)) = false
  /\ TextToSpeech.recordings
       (Handler.exec (TextToSpeech.handleSpeak refused true)
          (TextToSpeech.run refused_session TextToSpeech.init)) = [].
Proof.
  destruct (microphone_denied (TextToSpeech.run refused_session TextToSpeech.init)
              refused "Permission denied" eq_refl eq_refl)
    as (Hresult & _ & Hspeak).
  destruct (Hspeak eq_refl eq_refl eq_refl eq_refl)
    as (_ & Hdeclined & _ & Hconfirmed & _).
  split; [exact Hresult|]. split.
  - rewrite Hdeclined. reflexivity.
  - rewrite Hconfirmed. reflexivity.
Defined.

(** The capture of [capturing_session] still open after its utterance
    ended without stopping it: the next speak request reuses it. *)
Lemma speech_request_settings_witness :
  TextToSpeech.Utterance.lang <$>
    TextToSpeech.spoken
      (Handler.log (TextToSpeech.handleSpeak granted false)
         (TextToSpeech.run
            (capturing_session ++ [TextToSpeech.UtteranceEnd false stop_at_123])
            TextToSpeech.init))
  = ["th-TH"].
Proof.
  destruct speech_request_settings as (_ & _ & _ & Hopen).
  rewrite (Hopen (TextToSpeech.run
                    (capturing_session ++ [TextToSpeech.UtteranceEnd false stop_at_123])
                    TextToSpeech.init)
             granted false eq_refl eq_refl eq_refl eq_refl).
  reflexivity.
Defined.

(** ** The parts of the catalog contract that hold *)

(** [getVoices] publishes exactly the voices of the host catalog whose
    language tag, lowered, contains [th], [en] or [ko], in catalog order;
    without an engine, or with an empty catalog, it publishes the empty
    list, logs that one setter call and leaves the selection and the Thai
    flag as they were. *)
Theorem getVoices_publishes_supported_voices :
  (forall (catalog : option (list TextToSpeech.Voice.t)) (s : TextToSpeech.State)
          (v : TextToSpeech.Voice.t),
     v ∈ TextToSpeech.voices (Handler.exec (TextToSpeech.getVoices catalog) s) <->
     v ∈ default [] catalog
     /\ exists family, family ∈ ["th"; "en"; "ko"]
         /\ exists a b, JS.toLowerCase (TextToSpeech.Voice.lang v) = a +:+ family +:+ b)
  /\ (forall (catalog : option (list TextToSpeech.Voice.t)) (s : TextToSpeech.State),
        TextToSpeech.voices (Handler.exec (TextToSpeech.getVoices catalog) s)
        `sublist_of` default [] catalog)
  /\ (forall s : TextToSpeech.State,
        TextToSpeech.getVoices None s = (tt, TextToSpeech.with_voices [] s,
                                         [TextToSpeech.setVoices []])
        /\ TextToSpeech.getVoices (Some []) s = (tt, TextToSpeech.with_voices [] s,
                                                 [TextToSpeech.setVoices []])).
Proof.
  split; [|split].
  - intros catalog s v. apply (tts_getVoices_voices catalog s).
  - intros catalog s. rewrite (proj1 (tts_getVoices_voices catalog s)).
    apply sublist_filter.
  - intros s. split; reflexivity.
Qed.

(** The default [getVoices] selects, by the test the code makes: the
    first published voice whose tag, as the host gives it, contains [th],
    with the Thai flag set; failing that, the first published voice, with
    the Thai flag as it was. *)
Theorem getVoices_default_selection :
  forall (catalog : option (list TextToSpeech.Voice.t)) (s : TextToSpeech.State)
         (first : TextToSpeech.Voice.t) (rest : list TextToSpeech.Voice.t),
    let s' := Handler.exec (TextToSpeech.getVoices catalog) s in
    TextToSpeech.voices s' = first :: rest ->
    match List.find (fun v => JS.includes "th" (TextToSpeech.Voice.lang v)) (first :: rest) with
    | Some thaiVoice =>
        TextToSpeech.selectedVoice s' = TextToSpeech.Voice.voiceURI thaiVoice
        /\ TextToSpeech.isThaiVoice s' = true
    | None =>
        TextToSpeech.selectedVoice s' = TextToSpeech.Voice.voiceURI first
        /\ TextToSpeech.isThaiVoice s' = TextToSpeech.isThaiVoice s
    end.
Proof.
  intros catalog s first rest s' Hvoices.
  pose proof (tts_getVoices_selection catalog s) as Hsel.
  cbv zeta in Hsel. fold s' in Hsel. rewrite Hvoices in Hsel. exact Hsel.
Qed.

Lemma getVoices_default_selection_witness :
  TextToSpeech.selectedVoice
    (Handler.exec (TextToSpeech.getVoices (Some [samantha; kanya])) TextToSpeech.init)
  = "com.apple.voice.compact.th-TH.Kanya"
  /\ TextToSpeech.isThaiVoice
       (Handler.exec (TextToSpeech.getVoices (Some [samantha; kanya])) TextToSpeech.init)
     = true.
Proof.
  exact (getVoices_default_selection (Some [samantha; kanya]) TextToSpeech.init
           samantha [kanya] eq_refl).
Defined.

(** * Further properties of the code *)

(** ** Remote synthesis: the successful request *)

(** A successful remote synthesis issues exactly one GET request, to the
    endpoint of the selected style (one of two), with the text as query
    parameter and the API key as header; it wraps the response bytes in
    one [audio/mp3] blob, puts at the head of the registry an artifact
    that carries the current text and style, and ends with the loading
    flag off and every other cell as it was. *)
Theorem iapp_convert_success :
  forall (s : IappTextToSpeech.State) (h : IappTextToSpeech.Host) (data : list Byte.byte),
    JS.truthy (IappTextToSpeech.text s) = true ->
    IappTextToSpeech.response h = JS.Resolved data ->
    IappTextToSpeech.convertTextToSpeech h s
    = (tt,
       {| IappTextToSpeech.text := IappTextToSpeech.text s;
          IappTextToSpeech.apiKey := IappTextToSpeech.apiKey s;
          IappTextToSpeech.isLoading := false;
          IappTextToSpeech.recordings :=
            {| IappTextToSpeech.RecordedItem.id :=
                 "rec-" +:+ JS.number_to_string (IappTextToSpeech.now_id h);
               IappTextToSpeech.RecordedItem.text := IappTextToSpeech.text s;
               IappTextToSpeech.RecordedItem.url := IappTextToSpeech.objectURL h;
               IappTextToSpeech.RecordedItem.timestamp := IappTextToSpeech.now_timestamp h;
               IappTextToSpeech.RecordedItem.voiceType := IappTextToSpeech.selectedVoice s |}
            :: IappTextToSpeech.recordings s;
          IappTextToSpeech.selectedVoice := IappTextToSpeech.selectedVoice s |},
       [ IappTextToSpeech.setIsLoading true;
         IappTextToSpeech.axios
           {| IappTextToSpeech.method := "get";
              IappTextToSpeech.request_url :=
                match IappTextToSpeech.selectedVoice s with
                | IappTextToSpeech.kaitom => "https://api.iapp.co.th/thai-tts-kaitom/tts"
                | IappTextToSpeech.cee => "https://api.iapp.co.th/thai-tts-cee/tts"
                end;
              IappTextToSpeech.params_text := IappTextToSpeech.text s;
              IappTextToSpeech.headers_apikey := IappTextToSpeech.apiKey s;
              IappTextToSpeech.responseType := "arraybuffer" |};
         IappTextToSpeech.createObjectURL {| JS.bytes := data; JS.type := "audio/mp3" |};
         IappTextToSpeech.setRecordings;
         IappTextToSpeech.setIsLoading false ]).
Proof.
  intros [text key loading recs style] h data Htext Hresp. simpl in Htext.
  unfold IappTextToSpeech.convertTextToSpeech, IappTextToSpeech.do_setIsLoading,
    IappTextToSpeech.do_setRecordings, IappTextToSpeech.getApiUrl, JS.new_Blob,
    IappTextToSpeech.newRecording.
  run_handler. rewrite Htext, Hresp. simpl. rewrite app_nil_r.
  destruct style; reflexivity.
Qed.

Lemma iapp_convert_success_witness :
  IappTextToSpeech.RecordedItem.voiceType <$>
    IappTextToSpeech.recordings
      (Handler.exec (IappTextToSpeech.convertTextToSpeech first_synthesis)
         (Handler.exec (IappTextToSpeech.handleTextChange "hello") IappTextToSpeech.init))
  = [IappTextToSpeech.kaitom].
Proof.
  unfold Handler.exec at 1.
  rewrite (iapp_convert_success
             (Handler.exec (IappTextToSpeech.handleTextChange "hello") IappTextToSpeech.init)
             first_synthesis [Byte.x49; Byte.x44; Byte.x33] eq_refl eq_refl).
  reflexivity.
Defined.

(** ** Remote synthesis: what every session keeps *)




(** ** Download names *)

Lemma string_app_cons (c : Ascii.ascii) (a b : string) :
  String c a +:+ b = String c (a +:+ b).
Proof. reflexivity. Qed.

Lemma string_app_length (a b : string) :
  String.length (a +:+ b) = (String.length a + String.length b)%nat.
Proof.
  induction a as [|c a IH]; [reflexivity|].
  rewrite string_app_cons. simpl. by rewrite IH.
Qed.

Lemma string_app_inj_r (suffix a b : string) :
  a +:+ suffix = b +:+ suffix -> a = b.
Proof.
  revert b. induction a as [|c a IH]; intros [|d b] Heq.
  - reflexivity.
  - apply (f_equal String.length) in Heq.
    rewrite !string_app_length in Heq. simpl in Heq. lia.
  - apply (f_equal String.length) in Heq.
    rewrite !string_app_length in Heq. simpl in Heq. lia.
  - rewrite !string_app_cons in Heq. injection Heq as -> Heq. f_equal. by apply IH.
Qed.

(** The file names offered for download tell artifacts apart as far as
    their timestamps (and, for the remote component, their styles) do: a
    captured artifact is offered as [speech-<timestamp>.wav], a remote one
    as [iapp-<style>-<timestamp>.mp3], and two artifacts get the same name
    exactly when they agree on the timestamp (and on the style). *)
Theorem download_names_injective :
  (forall r1 r2 : TextToSpeech.RecordedItem.t,
     TextToSpeechView.download r1 = TextToSpeechView.download r2
     <-> TextToSpeech.RecordedItem.timestamp r1 = TextToSpeech.RecordedItem.timestamp r2)
  /\ (forall r1 r2 : IappTextToSpeech.RecordedItem.t,
        IappTextToSpeechView.download r1 = IappTextToSpeechView.download r2
        <-> IappTextToSpeech.RecordedItem.voiceType r1 = IappTextToSpeech.RecordedItem.voiceType r2
            /\ IappTextToSpeech.RecordedItem.timestamp r1
               = IappTextToSpeech.RecordedItem.timestamp r2)
  /\ (forall (c : IappTextToSpeech.State) (h : IappTextToSpeech.Host),
        IappTextToSpeechView.download (IappTextToSpeech.newRecording c h)
        = match IappTextToSpeech.selectedVoice c with
          | IappTextToSpeech.kaitom => "iapp-kaitom-"
          | IappTextToSpeech.cee => "iapp-cee-"
          end +:+ JS.number_to_string (IappTextToSpeech.now_timestamp h) +:+ ".mp3").
Proof.
  split; [|split].
  - intros r1 r2. unfold TextToSpeechView.download. split; [|congruence].
    intros Heq. apply (String.app_inj "speech-") in Heq.
    by apply string_app_inj_r, number_to_string_inj in Heq.
  - intros [? ? ? t1 v1] [? ? ? t2 v2]. unfold IappTextToSpeechView.download. simpl.
    split; [|by intros [-> ->]].
    intros Heq. apply (String.app_inj "iapp-") in Heq.
    destruct v1, v2; cbn in Heq; try discriminate.
    + apply (String.app_inj "kaitom-") in Heq.
      by apply string_app_inj_r, number_to_string_inj in Heq.
    + apply (String.app_inj "cee-") in Heq.
      by apply string_app_inj_r, number_to_string_inj in Heq.
  - intros c h. unfold IappTextToSpeechView.download, IappTextToSpeech.newRecording.
    simpl. destruct (IappTextToSpeech.selectedVoice c); reflexivity.
Qed.

(** ** Opening a capture *)

(** What [startRecording] leaves behind: a recorder in state [recording]
    that closes over the text of the render, an empty chunk buffer and the
    recording flag, when it returns [true]; the recorder, the buffer and
    the flag untouched, and an [alert] as its last call, when it returns
    [false].  It never touches the registry, the speaking flag or the
    engine, never speaks and never asks for confirmation. *)
Lemma tts_startRecording_effect (c : TextToSpeech.State) (h : TextToSpeech.CaptureHost)
    (s : TextToSpeech.State) :
  let s' := Handler.exec (TextToSpeech.startRecording c h) s in
  let l := Handler.log (TextToSpeech.startRecording c h) s in
  Handler.result (TextToSpeech.startRecording c h) s
  = (TextToSpeech.truthy_permission (TextToSpeech.hasMicPermission c)
     || TextToSpeechSession.resolved (TextToSpeech.permissionStream h))
    && (TextToSpeech.recordingPreparedRef s || TextToSpeech.audioContextRef s
        || TextToSpeechSession.resolved (TextToSpeech.audioContext h))
    && (TextToSpeechSession.resolved (TextToSpeech.captureStream h)
        && TextToSpeechSession.resolved (TextToSpeech.mediaRecorder h))
  /\ TextToSpeech.recordings s' = TextToSpeech.recordings s
  /\ TextToSpeech.isSpeaking s' = TextToSpeech.isSpeaking s
  /\ TextToSpeech.spoken l = []
  /\ TextToSpeechSession.confirms l = 0%nat
  /\ (if Handler.result (TextToSpeech.startRecording c h) s then
        TextToSpeech.mediaRecorderRef s'
        = Some {| TextToSpeech.MediaRecorder.state := TextToSpeech.recording;
                  TextToSpeech.MediaRecorder.onstop_text := TextToSpeech.text c |}
        /\ TextToSpeech.audioChunksRef s' = []
        /\ TextToSpeech.isRecording s' = true
        /\ TextToSpeech.recordingPreparedRef s' = true
      else
        TextToSpeech.mediaRecorderRef s' = TextToSpeech.mediaRecorderRef s
        /\ TextToSpeech.audioChunksRef s' = TextToSpeech.audioChunksRef s
        /\ TextToSpeech.isRecording s' = TextToSpeech.isRecording s
        /\ exists message, last l = Some (TextToSpeech.alert message)).
Proof.
  cbv zeta. unfold Handler.exec, Handler.log, Handler.result.
  destruct (TextToSpeech.startRecording c h s) as [[r s'] l] eqn:Hrun.
  revert Hrun.
  unfold TextToSpeech.startRecording, TextToSpeech.requestMicrophonePermission,
    TextToSpeech.prepareRecording.
  unfold Handler.bind, Handler.get, Handler.update, Handler.assign, Handler.call,
    Handler.ret.
  destruct h as [[?|?] [?|?] [?|?] [?|?]];
    destruct s as [? ? ? ? ? ? ? ? ? ? ? ? ? [|] [|]];
    destruct (TextToSpeech.truthy_permission (TextToSpeech.hasMicPermission c));
    cbn; intros [= <- <- <-]; cbn;
    repeat split; eexists; reflexivity.
Qed.


(** ** Speak requests *)

(** The guard of [handleSpeak]: with no engine, an empty text or a
    synthesis in progress the handler does nothing at all; in particular
    it does nothing whenever the speak button is rendered disabled. *)
Theorem handleSpeak_blocked :
  forall (c : TextToSpeech.State) (h : TextToSpeech.CaptureHost) (confirmed : bool),
    TextToSpeech.synth c = false \/ TextToSpeechView.speak_disabled c = true ->
    TextToSpeech.handleSpeak h confirmed c = (tt, c, []).
Proof.
  intros c h confirmed Hblocked.
  unfold TextToSpeech.handleSpeak, Handler.bind, Handler.get. simpl.
  destruct Hblocked as [->|Hdisabled]; [reflexivity|].
  unfold TextToSpeechView.speak_disabled in Hdisabled.
  destruct (TextToSpeech.synth c), (TextToSpeech.isSpeaking c),
    (JS.truthy (TextToSpeech.text c)); try reflexivity; discriminate.
Qed.

Lemma handleSpeak_blocked_witness :
  TextToSpeech.handleSpeak granted true
    (TextToSpeech.run capturing_session TextToSpeech.init)
  = (tt, TextToSpeech.run capturing_session TextToSpeech.init, []).
Proof. apply handleSpeak_blocked. right. reflexivity. Defined.

(** A speak request that passes the guard makes one capture attempt
    unless a capture is already open; it asks for confirmation exactly
    when no capture is open or could be opened; it hands exactly one
    utterance to the engine, and sets the speaking flag, when a capture is
    open or the user confirmed, and none otherwise.  The utterance's
    completion handler knows whether a capture is open. *)
Theorem handleSpeak_outcome :
  forall (c : TextToSpeech.State) (h : TextToSpeech.CaptureHost) (confirmed : bool),
    TextToSpeech.synth c = true ->
    TextToSpeechView.speak_disabled c = false ->
    let started :=
      if TextToSpeech.isRecording c then true
      else Handler.result (TextToSpeech.startRecording c h) c in
    let s' := Handler.exec (TextToSpeech.handleSpeak h confirmed) c in
    let l := Handler.log (TextToSpeech.handleSpeak h confirmed) c in
    TextToSpeech.spoken l
    = (if started || confirmed then [TextToSpeech.build_utterance c started] else [])
    /\ TextToSpeechSession.confirms l = (if started then 0%nat else 1%nat)
    /\ TextToSpeech.isSpeaking s' = started || confirmed
    /\ TextToSpeech.isRecording s' = started
    /\ TextToSpeech.recordings s' = TextToSpeech.recordings c.
Proof.
  intros c h confirmed Hsynth Hdisabled.
  unfold TextToSpeechView.speak_disabled in Hdisabled.
  apply orb_false_iff in Hdisabled as [Hspeaking Htext].
  apply negb_false_iff in Htext.
  pose proof (tts_startRecording_effect c h c)
    as (_ & Hrecs & Hsp & Hquiet & Hconf & Hcap).
  cbv zeta in *.
  unfold TextToSpeech.handleSpeak, Handler.exec, Handler.log, Handler.result in *.
  unfold Handler.bind, Handler.get, Handler.update, Handler.call, Handler.ret.
  rewrite Hsynth, Htext, Hspeaking. simpl.
  destruct (TextToSpeech.isRecording c) eqn:Hrec; simpl.
  - repeat split; first [reflexivity | exact Hrec].
  - destruct (TextToSpeech.startRecording c h c) as [[started s1] l1]. simpl in *.
    unfold TextToSpeech.spoken, TextToSpeechSession.confirms in *.
    destruct started, confirmed; simpl;
      rewrite ?omap_app, ?length_app; simpl;
      try (apply length_zero_iff_nil in Hconf);
      rewrite ?Hquiet, ?Hconf; simpl;
      repeat split; try reflexivity; try tauto; try congruence.
Qed.

Lemma handleSpeak_outcome_witness :
  TextToSpeech.Utterance.onend <$>
    TextToSpeech.spoken
      (Handler.log (TextToSpeech.handleSpeak refused true)
         (TextToSpeech.run refused_session TextToSpeech.init))
  = [Some false].
Proof.
  destruct (handleSpeak_outcome (TextToSpeech.run refused_session TextToSpeech.init)
              refused true eq_refl eq_refl) as [Hspoken _].
  rewrite Hspoken. reflexivity.
Defined.

(** ** The capture over a session *)

(** What an event does to the capture and the registry: nothing (but for
    a deletion), or it opens a capture (a speak request, with a text),
    or it stops the open recorder and registers its artifact. *)
Lemma tts_handle_capture (e : TextToSpeech.Event) (s : TextToSpeech.State) :
  let s' := Handler.exec (TextToSpeech.handle e) s in
  (TextToSpeech.mediaRecorderRef s' = TextToSpeech.mediaRecorderRef s
   /\ TextToSpeech.isRecording s' = TextToSpeech.isRecording s
   /\ (TextToSpeech.recordings s' = TextToSpeech.recordings s
       \/ exists id, TextToSpeech.recordings s'
                     = filter (fun r => TextToSpeech.RecordedItem.id r ≠ id)
                              (TextToSpeech.recordings s)))
  \/ ((exists h b, e = TextToSpeech.Speak h b)
      /\ JS.truthy (TextToSpeech.text s) = true
      /\ TextToSpeech.isRecording s = false
      /\ TextToSpeech.mediaRecorderRef s'
         = Some {| TextToSpeech.MediaRecorder.state := TextToSpeech.recording;
                   TextToSpeech.MediaRecorder.onstop_text := TextToSpeech.text s |}
      /\ TextToSpeech.isRecording s' = true
      /\ TextToSpeech.recordings s' = TextToSpeech.recordings s)
  \/ (exists mr h,
        TextToSpeech.stop_host e = Some h
        /\ TextToSpeech.mediaRecorderRef s = Some mr
        /\ TextToSpeech.MediaRecorder.state mr <> TextToSpeech.inactive
        /\ TextToSpeech.mediaRecorderRef s'
           = Some {| TextToSpeech.MediaRecorder.state := TextToSpeech.inactive;
                     TextToSpeech.MediaRecorder.onstop_text :=
                       TextToSpeech.MediaRecorder.onstop_text mr |}
        /\ TextToSpeech.isRecording s' = false
        /\ TextToSpeech.recordings s'
           = TextToSpeech.newRecording (TextToSpeech.MediaRecorder.onstop_text mr) h
             :: TextToSpeech.recordings s).
Proof.
  pose (view := fun s : TextToSpeech.State =>
                  (TextToSpeech.mediaRecorderRef s, TextToSpeech.isRecording s,
                   TextToSpeech.recordings s)).
  assert (Hkept : forall s', view s' = view s ->
            TextToSpeech.mediaRecorderRef s' = TextToSpeech.mediaRecorderRef s
            /\ TextToSpeech.isRecording s' = TextToSpeech.isRecording s
            /\ (TextToSpeech.recordings s' = TextToSpeech.recordings s
                \/ exists id, TextToSpeech.recordings s'
                     = filter (fun r => TextToSpeech.RecordedItem.id r ≠ id)
                              (TextToSpeech.recordings s))).
  { unfold view. intros s' [= -> -> ->]. auto. }
  destruct e as [r|v h|h|v|v|v|v|v|h b|d|b h|h|src|id]; cbv zeta.
  1, 2, 4, 5, 6, 7, 8, 10, 13:
    left; apply Hkept, (keeps_exec view); tts_unfold; simpl; keeps_auto.
  - (* Cleanup *)
    unfold TextToSpeech.handle, TextToSpeech.cleanup, TextToSpeech.stop_call,
      TextToSpeech.stop_events, TextToSpeech.ondataavailable, TextToSpeech.onstop.
    destruct s as [? ? ? ? ? ? ? ? ? ? sy [[[] t]|] ? ac ?]; run_handler;
      destruct sy, ac; simpl;
      try (left; repeat split; auto; fail);
      right; right; eexists _, h; simpl;
      destruct (0 <? JS.size (TextToSpeech.finalData h))%nat;
      repeat split; try reflexivity; discriminate.
  - (* Speak *)
    unfold TextToSpeech.handle, TextToSpeech.handleSpeak, Handler.exec.
    unfold Handler.bind, Handler.get, Handler.update, Handler.call, Handler.ret.
    destruct (TextToSpeech.synth s); simpl; [|left; auto].
    destruct (JS.truthy (TextToSpeech.text s)) eqn:Htext; simpl; [|left; auto].
    destruct (TextToSpeech.isSpeaking s); simpl; [left; auto|].
    destruct (TextToSpeech.isRecording s) eqn:Hrec; simpl; [left; auto|].
    pose proof (tts_startRecording_effect s h s) as (_ & Hrecs & _ & _ & _ & Hcap).
    cbv zeta in *. unfold Handler.exec, Handler.result in *.
    destruct (TextToSpeech.startRecording s h s) as [[started s1] l1]. simpl in *.
    destruct started; simpl.
    + right; left. destruct Hcap as (Hmr & _ & Hisrec & _).
      split; [by exists h, b|]. repeat split; congruence.
    + left. destruct Hcap as (Hmr & _ & Hisrec & _).
      destruct b; simpl; (split; [exact Hmr|split; [congruence|left; exact Hrecs]]).
  - (* UtteranceEnd *)
    unfold TextToSpeech.handle, TextToSpeech.utterance_onend, TextToSpeech.stop,
      TextToSpeech.stop_call, TextToSpeech.stop_events, TextToSpeech.ondataavailable,
      TextToSpeech.onstop.
    destruct s as [? ? ? ? ? ? ? ? ? ? ? [[[] t]|] ? ? ?]; run_handler;
      destruct b; simpl;
      try (left; repeat split; auto; fail);
      right; right; eexists _, h; simpl;
      destruct (0 <? JS.size (TextToSpeech.finalData h))%nat;
      repeat split; try reflexivity; discriminate.
  - (* Cancel *)
    unfold TextToSpeech.handle, TextToSpeech.handleCancel, TextToSpeech.stop,
      TextToSpeech.stop_call, TextToSpeech.stop_events, TextToSpeech.ondataavailable,
      TextToSpeech.onstop.
    destruct s as [? ? ? ? ? isRec ? ? ? ? sy [[[] t]|] ? ? ?]; run_handler;
      destruct sy, isRec; simpl;
      try (left; repeat split; auto; fail);
      right; right; eexists _, h; simpl;
      destruct (0 <? JS.size (TextToSpeech.finalData h))%nat;
      repeat split; try reflexivity; discriminate.
  - (* Delete *)
    left. unfold TextToSpeech.handle, TextToSpeech.deleteRecording. run_handler.
    repeat split; try reflexivity. right. by exists id.
Qed.

(** What a session of [TextToSpeech] keeps, from the initial state: the
    recording flag tells whether the recorder is recording, the recorder
    is never paused, the recorder's text and the artifacts' texts are not
    empty, and the artifacts, counting the open capture, are no more than
    the speak requests. *)
Lemma tts_session_capture (es : list TextToSpeech.Event) :
  let s := TextToSpeech.run es TextToSpeech.init in
  TextToSpeech.isRecording s = TextToSpeech.is_recording (TextToSpeech.mediaRecorderRef s)
  /\ TextToSpeech.is_active (TextToSpeech.mediaRecorderRef s)
     = TextToSpeech.is_recording (TextToSpeech.mediaRecorderRef s)
  /\ (forall mr, TextToSpeech.mediaRecorderRef s = Some mr ->
                 JS.truthy (TextToSpeech.MediaRecorder.onstop_text mr) = true)
  /\ Forall (fun r => JS.truthy (TextToSpeech.RecordedItem.text r) = true)
            (TextToSpeech.recordings s)
  /\ (length (TextToSpeech.recordings s)
      + (if TextToSpeech.isRecording s then 1 else 0)
      <= TextToSpeechSession.speak_requests es)%nat.
Proof.
  induction es as [|e es IH] using rev_ind; cbv zeta.
  - simpl. split; [reflexivity|]. split; [reflexivity|].
    split; [discriminate|]. split; [constructor|].
    unfold TextToSpeechSession.speak_requests. simpl. lia.
  - cbv zeta in IH. destruct IH as (Hflag & Hactive & Htext & Htexts & Hbound).
    unfold TextToSpeech.run in *. rewrite fold_left_app. simpl.
    unfold TextToSpeechSession.speak_requests in *. rewrite omap_app, length_app.
    set (s := fold_left _ es TextToSpeech.init) in *.
    destruct (tts_handle_capture e s)
      as [(Hmr & Hrec & Hrecs)
         |[((h & b & ->) & Ht & Hoff & Hmr & Hrec & Hrecs)
          |(mr & h & Hh & Hmr0 & Hstate & Hmr & Hrec & Hrecs)]];
      cbv zeta in *.
    + rewrite Hmr, Hrec. repeat split; try assumption.
      * destruct Hrecs as [->|[id ->]]; [assumption|].
        apply Forall_forall. intros r Hr.
        apply list_elem_of_filter in Hr as [_ Hr].
        by apply (proj1 (Forall_forall _ _) Htexts).
      * assert (length (TextToSpeech.recordings
                          (Handler.exec (TextToSpeech.handle e) s))
                <= length (TextToSpeech.recordings s))%nat.
        { destruct Hrecs as [->|[id ->]]; [lia|apply length_filter]. }
        lia.
    + rewrite Hmr, Hrec, Hrecs. simpl. repeat split; try assumption.
      * intros mr [= <-]. exact Ht.
      * rewrite Hoff in Hbound. lia.
    + rewrite Hmr, Hrec, Hrecs. simpl. repeat split.
      * intros mr' [= <-]. simpl. by apply Htext.
      * constructor; [|exact Htexts]. simpl. by apply Htext.
      * assert (TextToSpeech.isRecording s = true) as Hon.
        { rewrite Hflag. rewrite <- Hactive, Hmr0. simpl.
          destruct (TextToSpeech.MediaRecorder.state mr); congruence. }
        rewrite Hon in Hbound. lia.
Qed.


(** In every session no captured artifact has an empty source text: a
    capture is only opened by a speak request, which needs a text, and
    the artifact carries the text of that request. *)
Theorem tts_artifact_texts_nonempty :
  forall es : list TextToSpeech.Event,
    Forall (fun r => TextToSpeech.RecordedItem.text r <> "")
           (TextToSpeech.recordings (TextToSpeech.run es TextToSpeech.init)).
Proof.
  intros es. destruct (tts_session_capture es) as (_ & _ & _ & Htexts & _).
  eapply Forall_impl; [exact Htexts|].
  intros r Hr Hempty. cbv beta in Hr. rewrite Hempty in Hr. discriminate.
Qed.

(** In every session the registry, plus one when a capture is open, holds
    no more artifacts than speak requests were made: a capture is
    finalized at most once, whichever of the utterance's end, a cancel
    and the cleanup come, and in whatever order. *)
Theorem tts_artifacts_bounded_by_requests :
  forall es : list TextToSpeech.Event,
    let s := TextToSpeech.run es TextToSpeech.init in
    (length (TextToSpeech.recordings s) + (if TextToSpeech.isRecording s then 1 else 0)
     <= TextToSpeechSession.speak_requests es)%nat.
Proof. intros es. apply (tts_session_capture es). Qed.

(** ** A capture from the speak request to the artifact *)

Lemma tts_data_run (ds : list JS.Blob) :
  forall s : TextToSpeech.State,
    let s' := TextToSpeech.run (TextToSpeech.DataAvailable <$> ds) s in
    TextToSpeech.mediaRecorderRef s' = TextToSpeech.mediaRecorderRef s
    /\ TextToSpeech.recordings s' = TextToSpeech.recordings s
    /\ TextToSpeech.text s' = TextToSpeech.text s
    /\ TextToSpeech.audioChunksRef s'
       = TextToSpeech.audioChunksRef s ++ filter (fun d => (0 < JS.size d)%nat) ds.
Proof.
  induction ds as [|d ds IH]; intros s; cbv zeta.
  - simpl. by rewrite app_nil_r.
  - rewrite fmap_cons. change (TextToSpeech.run (?e :: ?es) s)
      with (TextToSpeech.run es (Handler.exec (TextToSpeech.handle e) s)).
    destruct (IH (Handler.exec (TextToSpeech.handle (TextToSpeech.DataAvailable d)) s))
      as (Hmr & Hrecs & Htext & Hchunks).
    cbv zeta in *. rewrite Hmr, Hrecs, Htext, Hchunks. rewrite filter_cons.
    unfold TextToSpeech.handle, TextToSpeech.ondataavailable. run_handler.
    destruct (Nat.ltb_spec 0 (JS.size d)) as [Hpos|Hzero].
    + rewrite decide_True by exact Hpos. simpl. by rewrite <- app_assoc.
    + rewrite decide_False by lia. simpl. done.
Qed.

Lemma blob_bytes_nonempty (ds : list JS.Blob) :
  concat (JS.bytes <$> filter (fun d => (0 < JS.size d)%nat) ds)
  = concat (JS.bytes <$> ds).
Proof.
  induction ds as [|d ds IH]; [reflexivity|].
  rewrite filter_cons, (fmap_cons _ d ds), (concat_cons (JS.bytes d)).
  destruct (decide (0 < JS.size d)%nat) as [Hpos|Hzero].
  - by rewrite fmap_cons, concat_cons, IH.
  - rewrite IH. unfold JS.size in Hzero.
    destruct (JS.bytes d); [reflexivity|simpl in Hzero; lia].
Qed.

Lemma tts_onend_finalizes (s : TextToSpeech.State) (sh : TextToSpeech.StopHost)
    (text : string) :
  TextToSpeech.mediaRecorderRef s
  = Some {| TextToSpeech.MediaRecorder.state := TextToSpeech.recording;
            TextToSpeech.MediaRecorder.onstop_text := text |} ->
  let s' := Handler.exec (TextToSpeech.utterance_onend true sh) s in
  TextToSpeech.recordings s' = TextToSpeech.newRecording text sh :: TextToSpeech.recordings s
  /\ TextToSpeech.isSpeaking s' = false
  /\ TextToSpeech.isRecording s' = false
  /\ Handler.log (TextToSpeech.utterance_onend true sh) s
     = [ TextToSpeech.setIsSpeaking false;
         TextToSpeech.mediaRecorder_stop;
         TextToSpeech.createObjectURL
           {| JS.bytes := concat (JS.bytes <$> TextToSpeech.audioChunksRef s)
                          ++ JS.bytes (TextToSpeech.finalData sh);
              JS.type := "audio/wav" |};
         TextToSpeech.setRecordings;
         TextToSpeech.stopTracks;
         TextToSpeech.setIsRecording false ].
Proof.
  destruct s as [? ? ? ? ? ? ? ? ? ? ? mref chunks ? ?]. simpl. intros ->.
  unfold TextToSpeech.utterance_onend, TextToSpeech.stop, TextToSpeech.stop_call,
    TextToSpeech.stop_events, TextToSpeech.ondataavailable, TextToSpeech.onstop,
    JS.new_Blob, JS.size.
  run_handler.
  destruct (TextToSpeech.finalData sh) as [final ty]. simpl.
  destruct final as [|x final]; simpl.
  - rewrite app_nil_r. repeat split; reflexivity.
  - rewrite fmap_app, concat_app. simpl. rewrite app_nil_r.
    repeat split; reflexivity.
Qed.

(** A capture end to end.  A speak request that opens a capture, then an
    edit of the text and the chunks the host delivers, then the end of the
    utterance: the registry gains, at its head, one artifact whose text is
    the text of the speak request (not the edited one), the blob that is
    wrapped is typed [audio/wav] and holds exactly the delivered bytes, in
    order, and both the speaking and the recording flag are off again. *)
Theorem capture_round_trip :
  forall (c : TextToSpeech.State) (h : TextToSpeech.CaptureHost) (confirmed : bool)
         (edited : string) (ds : list JS.Blob) (sh : TextToSpeech.StopHost),
    TextToSpeech.synth c = true ->
    TextToSpeechView.speak_disabled c = false ->
    TextToSpeech.isRecording c = false ->
    Handler.result (TextToSpeech.startRecording c h) c = true ->
    let s1 := Handler.exec (TextToSpeech.handleSpeak h confirmed) c in
    let s2 := TextToSpeech.run
                (TextToSpeech.TextChange edited :: (TextToSpeech.DataAvailable <$> ds)) s1 in
    let s3 := Handler.exec (TextToSpeech.utterance_onend true sh) s2 in
    TextToSpeech.recordings s3
    = {| TextToSpeech.RecordedItem.id :=
           "rec-" +:+ JS.number_to_string (TextToSpeech.now_id sh);
         TextToSpeech.RecordedItem.text := TextToSpeech.text c;
         TextToSpeech.RecordedItem.url := TextToSpeech.objectURL sh;
         TextToSpeech.RecordedItem.timestamp := TextToSpeech.now_timestamp sh |}
      :: TextToSpeech.recordings c
    /\ TextToSpeech.text s2 = edited
    /\ TextToSpeech.isSpeaking s3 = false
    /\ TextToSpeech.isRecording s3 = false
    /\ Handler.log (TextToSpeech.utterance_onend true sh) s2
       = [ TextToSpeech.setIsSpeaking false;
           TextToSpeech.mediaRecorder_stop;
           TextToSpeech.createObjectURL
             {| JS.bytes := concat (JS.bytes <$> ds)
                            ++ JS.bytes (TextToSpeech.finalData sh);
                JS.type := "audio/wav" |};
           TextToSpeech.setRecordings;
           TextToSpeech.stopTracks;
           TextToSpeech.setIsRecording false ].
Proof.
  intros c h confirmed edited ds sh Hsynth Hdisabled Hrec Hstarted s1 s2 s3.
  unfold TextToSpeechView.speak_disabled in Hdisabled.
  apply orb_false_iff in Hdisabled as [Hspeaking Htext].
  apply negb_false_iff in Htext.
  pose proof (tts_startRecording_effect c h c) as (_ & Hrecs & _ & _ & _ & Hcap).
  cbv zeta in Hrecs, Hcap. rewrite Hstarted in Hcap.
  destruct Hcap as (Hmr & Hchunks & _).
  assert (Hs1 : s1 = TextToSpeech.with_isSpeaking true
                       (Handler.exec (TextToSpeech.startRecording c h) c)).
  { subst s1. unfold TextToSpeech.handleSpeak, Handler.exec, Handler.result in *.
    unfold Handler.bind, Handler.get, Handler.update, Handler.call, Handler.ret.
    rewrite Hsynth, Htext, Hspeaking, Hrec. simpl.
    destruct (TextToSpeech.startRecording c h c) as [[started s0] l0].
    simpl in Hstarted. subst started. reflexivity. }
  set (s1' := TextToSpeech.with_text edited s1).
  assert (Hs2 : s2 = TextToSpeech.run (TextToSpeech.DataAvailable <$> ds) s1')
    by reflexivity.
  destruct (tts_data_run ds s1') as (Hmr2 & Hrecs2 & Htext2 & Hchunks2). cbv zeta in *.
  rewrite <- Hs2 in Hmr2, Hrecs2, Htext2, Hchunks2.
  assert (Hmr1 : TextToSpeech.mediaRecorderRef s1'
                 = Some {| TextToSpeech.MediaRecorder.state := TextToSpeech.recording;
                           TextToSpeech.MediaRecorder.onstop_text := TextToSpeech.text c |})
    by (subst s1'; rewrite Hs1; exact Hmr).
  assert (Hchunks1 : TextToSpeech.audioChunksRef s1' = [])
    by (subst s1'; rewrite Hs1; exact Hchunks).
  assert (Hrecs1 : TextToSpeech.recordings s1' = TextToSpeech.recordings c)
    by (subst s1'; rewrite Hs1; exact Hrecs).
  rewrite Hmr1 in Hmr2. rewrite Hchunks1 in Hchunks2. simpl in Hchunks2.
  destruct (tts_onend_finalizes s2 sh _ Hmr2) as (H3 & Hsp3 & Hrec3 & Hlog3).
  cbv zeta in *. fold s3 in H3, Hsp3, Hrec3.
  split; [rewrite H3, Hrecs2, Hrecs1; reflexivity|].
  split; [rewrite Htext2; reflexivity|].
  split; [exact Hsp3|]. split; [exact Hrec3|].
  rewrite Hlog3, Hchunks2, blob_bytes_nonempty. reflexivity.
Qed.

Lemma capture_round_trip_witness :
  TextToSpeech.RecordedItem.text <$>
    TextToSpeech.recordings
      (Handler.exec (TextToSpeech.utterance_onend true stop_at_123)
         (TextToSpeech.run
            (TextToSpeech.TextChange "bye" :: (TextToSpeech.DataAvailable <$> [chunk1]))
            (Handler.exec (TextToSpeech.handleSpeak granted false)
               (TextToSpeech.run (take 3 capturing_session) TextToSpeech.init))))
  = ["hello"].
Proof.
  destruct (capture_round_trip
              (TextToSpeech.run (take 3 capturing_session) TextToSpeech.init)
              granted false "bye" [chunk1] stop_at_123 eq_refl eq_refl eq_refl eq_refl)
    as [Hregistry _].
  rewrite Hregistry. reflexivity.
Defined.

(** ** Preparing the recording *)

Lemma tts_prepareRecording_with_context (h : TextToSpeech.CaptureHost)
    (s : TextToSpeech.State) :
  TextToSpeech.audioContextRef s = true ->
  TextToSpeech.prepareRecording h s = (true, TextToSpeech.with_recordingPreparedRef true s, []).
Proof.
  destruct s as [? ? ? ? ? ? ? ? ? ? ? ? ? ac prepared]. simpl. intros ->.
  unfold TextToSpeech.prepareRecording. run_handler. by destruct prepared.
Qed.

Lemma tts_startRecording_context (c : TextToSpeech.State) (h : TextToSpeech.CaptureHost)
    (s : TextToSpeech.State) :
  TextToSpeech.audioContextRef s = true ->
  TextToSpeech.audioContextRef (Handler.exec (TextToSpeech.startRecording c h) s) = true
  /\ TextToSpeechSession.audio_contexts (Handler.log (TextToSpeech.startRecording c h) s)
     = 0%nat.
Proof.
  intros Hctx. unfold Handler.exec, Handler.log.
  destruct (TextToSpeech.startRecording c h s) as [[r s'] l] eqn:Hrun.
  revert Hrun.
  unfold TextToSpeech.startRecording, TextToSpeech.requestMicrophonePermission,
    TextToSpeech.prepareRecording.
  unfold Handler.bind, Handler.get, Handler.update, Handler.assign, Handler.call,
    Handler.ret.
  destruct h as [[?|?] [?|?] [?|?] [?|?]];
    destruct s as [? ? ? ? ? ? ? ? ? ? ? ? ? ac [|]]; simpl in Hctx; subst ac;
    destruct (TextToSpeech.truthy_permission (TextToSpeech.hasMicPermission c));
    cbn; intros [= <- <- <-]; cbn; split; reflexivity.
Qed.

Lemma tts_handle_context (e : TextToSpeech.Event) (s : TextToSpeech.State) :
  TextToSpeech.audioContextRef s = true ->
  TextToSpeech.audioContextRef (Handler.exec (TextToSpeech.handle e) s) = true
  /\ TextToSpeechSession.audio_contexts (Handler.log (TextToSpeech.handle e) s) = 0%nat.
Proof.
  intros Hctx.
  destruct e as [r|v h|h|v|v|v|v|v|h b|d|b h|h|src|id].
  - destruct r as [[?|?]|]; split; first [exact Hctx|reflexivity].
  - (* Effect *)
    unfold TextToSpeech.handle, TextToSpeech.effect, TextToSpeech.getVoices,
      TextToSpeech.prepareRecording.
    destruct s as [? ? ? ? ? ? perm ? ? ? ? ? ? ac prepared]. simpl in Hctx. subst ac.
    run_handler.
    destruct (filter _ _) as [|first rest]; run_handler;
      [|destruct (if JS.includes "th" (TextToSpeech.Voice.lang first) then _ else _)];
      destruct (TextToSpeech.truthy_permission perm), prepared; split; reflexivity.
  - (* Cleanup *)
    unfold TextToSpeech.handle, TextToSpeech.cleanup, TextToSpeech.stop_call,
      TextToSpeech.stop_events, TextToSpeech.ondataavailable, TextToSpeech.onstop.
    destruct s as [? ? ? ? ? ? ? ? ? ? sy [[[] t]|] ? ac ?]. all: simpl in Hctx; subst ac.
    all: run_handler; destruct sy; simpl;
      try destruct (0 <? JS.size (TextToSpeech.finalData h))%nat; split; reflexivity.
  - (* VoicesChanged *)
    unfold TextToSpeech.handle, TextToSpeech.getVoices.
    destruct s as [? ? ? ? ? ? ? ? ? ? ? ? ? ac ?]. simpl in Hctx. subst ac.
    run_handler.
    destruct (filter _ _) as [|first rest]; run_handler;
      [|destruct (if JS.includes "th" (TextToSpeech.Voice.lang first) then _ else _)];
      split; reflexivity.
  - split; [exact Hctx|reflexivity].
  - split; [exact Hctx|reflexivity].
  - split; [exact Hctx|reflexivity].
  - split; [exact Hctx|reflexivity].
  - (* Speak *)
    pose proof (tts_startRecording_context s h s Hctx) as [Hc Hl].
    unfold TextToSpeech.handle, TextToSpeech.handleSpeak, Handler.exec, Handler.log in *.
    unfold Handler.bind, Handler.get, Handler.update, Handler.call, Handler.ret.
    destruct (_ && _ && _); simpl; [|split; [exact Hctx|reflexivity]].
    destruct (TextToSpeech.isRecording s); simpl; [split; [exact Hctx|reflexivity]|].
    destruct (TextToSpeech.startRecording s h s) as [[started s1] l1]. simpl in *.
    unfold TextToSpeechSession.audio_contexts in *.
    destruct started, b; simpl; rewrite ?omap_app, ?length_app, ?Hl; simpl;
      split; first [exact Hc|reflexivity].
  - (* DataAvailable *)
    unfold TextToSpeech.handle, TextToSpeech.ondataavailable. run_handler.
    destruct (0 <? JS.size d)%nat; split; first [exact Hctx|reflexivity].
  - (* UtteranceEnd *)
    unfold TextToSpeech.handle, TextToSpeech.utterance_onend, TextToSpeech.stop,
      TextToSpeech.stop_call, TextToSpeech.stop_events, TextToSpeech.ondataavailable,
      TextToSpeech.onstop.
    destruct s as [? ? ? ? ? ? ? ? ? ? ? [[[] t]|] ? ac ?]. all: simpl in Hctx; subst ac.
    all: run_handler; destruct b; simpl;
      try destruct (0 <? JS.size (TextToSpeech.finalData h))%nat; split; reflexivity.
  - (* Cancel *)
    unfold TextToSpeech.handle, TextToSpeech.handleCancel, TextToSpeech.stop,
      TextToSpeech.stop_call, TextToSpeech.stop_events, TextToSpeech.ondataavailable,
      TextToSpeech.onstop.
    destruct s as [? ? ? ? ? isRec ? ? ? ? sy [[[] t]|] ? ac ?].
    all: simpl in Hctx; subst ac.
    all: run_handler; destruct sy, isRec; simpl;
      try destruct (0 <? JS.size (TextToSpeech.finalData h))%nat; split; reflexivity.
  - split; [exact Hctx|reflexivity].
  - split; [exact Hctx|reflexivity].
Qed.

(** The audio context is built at most once.  After a [prepareRecording]
    that returned [true] the recording is marked prepared (with a context
    in the box, if it was not marked before) and any further call returns
    [true] at once, building and logging nothing and changing nothing;
    and from any state with a context in the box, no event of any session
    builds another one or empties the box. *)
Theorem audio_context_built_once :
  (forall (h : TextToSpeech.CaptureHost) (s : TextToSpeech.State),
     Handler.result (TextToSpeech.prepareRecording h) s = true ->
     let s' := Handler.exec (TextToSpeech.prepareRecording h) s in
     TextToSpeech.recordingPreparedRef s' = true
     /\ (TextToSpeech.recordingPreparedRef s = false ->
         TextToSpeech.audioContextRef s' = true)
     /\ forall h', TextToSpeech.prepareRecording h' s' = (true, s', []))
  /\ (forall (es : list TextToSpeech.Event) (s : TextToSpeech.State),
        TextToSpeech.audioContextRef s = true ->
        TextToSpeech.audioContextRef (TextToSpeech.run es s) = true
        /\ TextToSpeechSession.audio_contexts (TextToSpeechSession.trace es s) = 0%nat).
Proof.
  split.
  - intros h s. unfold TextToSpeech.prepareRecording.
    destruct s as [? ? ? ? ? ? ? ? ? ? ? ? ? [|] [|]]; run_handler;
      try (intros _; repeat split; first [reflexivity|discriminate]);
      destruct (TextToSpeech.audioContext h); simpl;
      first [discriminate | intros _; repeat split; reflexivity].
  - intros es. induction es as [|e es IH]; intros s Hctx.
    + split; [exact Hctx|reflexivity].
    + destruct (tts_handle_context e s Hctx) as [Hctx' Hlog].
      destruct (IH _ Hctx') as [Hrun Htrace].
      split; [exact Hrun|].
      simpl. unfold TextToSpeechSession.audio_contexts in *.
      rewrite omap_app, length_app, Hlog, Htrace. reflexivity.
Qed.

Lemma audio_context_built_once_witness :
  TextToSpeechSession.audio_contexts
    (TextToSpeechSession.trace
       (drop 2 capturing_session ++ [TextToSpeech.Cancel stop_at_123;
                                     TextToSpeech.Speak granted false])
       (TextToSpeech.run (take 2 capturing_session) TextToSpeech.init))
  = 0%nat.
Proof.
  destruct audio_context_built_once as [_ Hsession].
  exact (proj2 (Hsession _ (TextToSpeech.run (take 2 capturing_session) TextToSpeech.init)
                  eq_refl)).
Defined.

(** ** Cleanup *)

(** The cleanup of the effect cancels the engine when there is one, closes
    the audio context when there is one, and leaves no recorder active: a
    recorder that was active is stopped exactly once, its artifact goes to
    the head of the registry and the recording flag is cleared, so a
    second cleanup registers nothing more. *)
Theorem cleanup_releases :
  forall (s : TextToSpeech.State) (h h' : TextToSpeech.StopHost),
    let s' := Handler.exec (TextToSpeech.cleanup h) s in
    let l := Handler.log (TextToSpeech.cleanup h) s in
    TextToSpeech.is_active (TextToSpeech.mediaRecorderRef s') = false
    /\ TextToSpeech.recordings s'
       = match TextToSpeech.mediaRecorderRef s with
         | Some mr =>
             if TextToSpeech.is_active (Some mr) then
               TextToSpeech.newRecording (TextToSpeech.MediaRecorder.onstop_text mr) h
               :: TextToSpeech.recordings s
             else TextToSpeech.recordings s
         | None => TextToSpeech.recordings s
         end
    /\ (TextToSpeech.is_active (TextToSpeech.mediaRecorderRef s) = true ->
        TextToSpeech.isRecording s' = false /\ TextToSpeech.stopTracks ∈ l)
    /\ (TextToSpeech.synth s = true -> head l = Some TextToSpeech.synth_cancel)
    /\ (TextToSpeech.audioContextRef s = true -> TextToSpeech.audioContext_close ∈ l)
    /\ TextToSpeech.recordings (Handler.exec (TextToSpeech.cleanup h') s')
       = TextToSpeech.recordings s'.
Proof.
  intros s h h'.
  unfold TextToSpeech.cleanup, TextToSpeech.stop_call, TextToSpeech.stop_events,
    TextToSpeech.ondataavailable, TextToSpeech.onstop.
  destruct s as [? ? ? ? ? ? ? ? ? ? sy [[[] t]|] ? ac ?]; run_handler;
    destruct sy, ac; simpl;
    try destruct (0 <? JS.size (TextToSpeech.finalData h))%nat; simpl;
    repeat (split; intros); try reflexivity; try discriminate;
    repeat first [apply list_elem_of_here | apply list_elem_of_further].
Qed.

(** ** Choosing a voice *)

(** After the user picks a voice of the list, that voice is the selected
    one, the Thai flag tells whether its tag contains [th], and the next
    request carries that voice, with the voice's own tag as language when
    the tag contains [th] and with the language unset otherwise; the
    ["th-TH"] default is not used. *)
Theorem voice_change_request :
  forall (c : TextToSpeech.State) (voiceURI : string) (v : TextToSpeech.Voice.t)
         (started : bool),
    List.find (fun v => String.eqb (TextToSpeech.Voice.voiceURI v) voiceURI)
              (TextToSpeech.voices c) = Some v ->
    let s := Handler.exec (TextToSpeech.handleVoiceChange voiceURI) c in
    let u := TextToSpeech.build_utterance s started in
    TextToSpeech.selectedVoice s = voiceURI
    /\ TextToSpeech.Voice.voiceURI v = voiceURI
    /\ TextToSpeech.isThaiVoice s = JS.includes "th" (TextToSpeech.Voice.lang v)
    /\ TextToSpeech.Utterance.voice u = Some v
    /\ TextToSpeech.Utterance.lang u
       = (if JS.includes "th" (TextToSpeech.Voice.lang v)
          then TextToSpeech.Voice.lang v else "")
    /\ TextToSpeech.Utterance.rate u = TextToSpeech.rate c
    /\ TextToSpeech.Utterance.pitch u = TextToSpeech.pitch c.
Proof.
  intros c voiceURI v started Hfind.
  pose proof (find_some _ _ Hfind) as [_ Huri]. apply String.eqb_eq in Huri.
  destruct c as [? vs ? ? ? ? ? ? ? ? ? ? ? ? ?]. simpl in Hfind.
  unfold TextToSpeech.handleVoiceChange, TextToSpeech.build_utterance,
    TextToSpeech.find_voice, TextToSpeech.convertTextToSpeech.
  run_handler. rewrite Hfind. simpl.
  destruct (JS.includes "th" (TextToSpeech.Voice.lang v)); simpl;
    repeat split; first [reflexivity | exact Huri].
Qed.

Lemma voice_change_request_witness :
  TextToSpeech.Utterance.lang
    (TextToSpeech.build_utterance
       (Handler.exec
          (TextToSpeech.handleVoiceChange "com.apple.voice.compact.en-US.Samantha")
          (TextToSpeech.run thai_session TextToSpeech.init))
       true)
  = "".
Proof.
  destruct (voice_change_request (TextToSpeech.run thai_session TextToSpeech.init)
              "com.apple.voice.compact.en-US.Samantha" samantha true eq_refl)
    as (_ & _ & _ & _ & Hlang & _).
  exact Hlang.
Defined.
